(** * Verification of bridge_claude_codex_apply.py

    A shallow embedding of the Proposer/Reviewer bridge: the JSON response
    parser [parse_first_json_block], the path guard [safe_relpath], the change
    executor [apply_change], the batch applier [apply_changes] and the
    negotiation loop of [main].

    Python strings are lists of code points ([pystr]).  Python exceptions are
    the constructors of [py_exc]; a computation that may raise returns a
    [py_result].  The operating system primitives the program relies on
    ([Path.resolve], the regular-expression engine, float conversions,
    [str.isidentifier], [int(str)], the interpreter's recursion limit and
    the encoding of standard output) are gathered in the record [py_env].
    The backend replies and the user's input are parameters of a run. *)

From Stdlib Require Import ZArith String Ascii.
From stdpp Require Import base list gmap sets.

#[local] Set Warnings "-register-all".
Local Open Scope Z_scope.

(* ------------------------------------------------------------------ *)
(** ** Python values *)

Definition pystr := list Z.

(** A Rocq string literal read as a Python [str] (one code point per
    character). *)
Definition pys (s : string) : pystr :=
  map (fun a => Z.of_nat (nat_of_ascii a)) (list_ascii_of_string s).

Definition pystr_eqb (a b : pystr) : bool := bool_decide (a = b).

(** Values produced by [json.loads]: integers are Python [int]s, numbers
    with a fraction or an exponent (and [NaN], [Infinity], [-Infinity]) are
    Python [float]s kept as their literal; objects keep their keys in
    insertion order, a repeated key keeping its first position and its last
    value, as a Python [dict] does. *)
Inductive json : Type :=
  | JNull
  | JBool (b : bool)
  | JInt (z : Z)
  | JFloat (lit : pystr)
  | JStr (s : pystr)
  | JArr (l : list json)
  | JObj (kvs : list (pystr * json)).

(** Absolute paths, as the list of their components ([/] is [[]]). *)
Definition path := list pystr.

Inductive os_err := IsADirectoryError | NotADirectoryOrExistsError.

Inductive py_exc : Type :=
  | ValueError_escape (p : path)   (** [safe_relpath]: "Chemin hors workspace_root" *)
  | ValueError_nojson              (** [parse_first_json_block]: "Réponse sans JSON valide." *)
  | JSONDecodeError                (** [json.loads] rejects its input *)
  | RecursionError_                (** [json.loads], [json.dumps] or [re.compile] nests too deep *)
  | OverflowError_                 (** [re.compile]: a repetition count too large *)
  | ValueError_digits              (** [json.loads]: an int literal over 4300 digits *)
  | TypeError_
  | AttributeError_                (** [.get] on a value that is not a dict *)
  | OSError_ (k : os_err)
  | UnicodeEncodeError_            (** writing or printing a code point the encoding refuses *)
  | UnicodeDecodeError_            (** reading text that is not UTF-8 *)
  | EOFError_                      (** [input()] at the end of standard input *)
  | ReError                        (** [re.error] *)
  | IndexError_                    (** unknown group name in a template *)
  | IntError                       (** [int(x)] raises *)
  | BackendError                   (** the Anthropic/OpenAI call raises *)
  | UnboundLocalError_ (var : string)
  | ResolveError.                  (** [Path.resolve] raises (e.g. NUL byte) *)

Inductive py_result (A : Type) : Type :=
  | Ok (a : A)
  | Exc (e : py_exc).
Arguments Ok {A} a.
Arguments Exc {A} e.

(** Python truthiness of a JSON value; the truthiness of a float is an
    environment primitive. *)
Definition truthy (float_truthy : pystr -> bool) (v : json) : bool :=
  match v with
  | JNull => false
  | JBool b => b
  | JInt z => negb (Z.eqb z 0)
  | JFloat lit => float_truthy lit
  | JStr s => negb (bool_decide (s = []))
  | JArr l => negb (bool_decide (l = []))
  | JObj kvs => negb (bool_decide (kvs = []))
  end.

Fixpoint assoc_get (kvs : list (pystr * json)) (k : pystr) : option json :=
  match kvs with
  | [] => None
  | (k', v) :: r => if pystr_eqb k k' then Some v else assoc_get r k
  end.

(** [d[k] = v] on a dict: replace the value in place, or append. *)
Fixpoint dict_set (kvs : list (pystr * json)) (k : pystr) (v : json)
  : list (pystr * json) :=
  match kvs with
  | [] => [(k, v)]
  | (k', v') :: r =>
      if pystr_eqb k k' then (k', v) :: r else (k', v') :: dict_set r k v
  end.

(** [d.get(k, default)]. *)
Definition py_get (d : json) (k : pystr) (default : json) : py_result json :=
  match d with
  | JObj kvs => Ok (match assoc_get kvs k with Some v => v | None => default end)
  | _ => Exc AttributeError_
  end.

(** [x == "lit"] for a JSON value. *)
Definition json_is_str (v : json) (s : pystr) : bool :=
  match v with JStr s' => pystr_eqb s' s | _ => false end.

(* ------------------------------------------------------------------ *)
(** ** [json.loads] (CPython's C scanner, strict mode) *)

Module Json.

Definition is_ws (c : Z) : bool :=
  Z.eqb c 32 || Z.eqb c 9 || Z.eqb c 10 || Z.eqb c 13.

Fixpoint skip_ws (s : list Z) : list Z :=
  match s with
  | c :: r => if is_ws c then skip_ws r else s
  | [] => []
  end.

Definition is_digit (c : Z) : bool := (48 <=? c) && (c <=? 57).

Definition hex_val (c : Z) : option Z :=
  if is_digit c then Some (c - 48)
  else if (97 <=? c) && (c <=? 102) then Some (c - 87)
  else if (65 <=? c) && (c <=? 70) then Some (c - 55)
  else None.

Definition hex4 (a b c d : Z) : option Z :=
  match hex_val a, hex_val b, hex_val c, hex_val d with
  | Some x1, Some x2, Some x3, Some x4 => Some (((x1 * 16 + x2) * 16 + x3) * 16 + x4)
  | _, _, _, _ => None
  end.

Definition is_high (u : Z) : bool := (55296 <=? u) && (u <=? 56319).
Definition is_low (u : Z) : bool := (56320 <=? u) && (u <=? 57343).

Definition simple_escape (e : Z) : option Z :=
  if Z.eqb e 34 then Some 34 else if Z.eqb e 92 then Some 92
  else if Z.eqb e 47 then Some 47 else if Z.eqb e 98 then Some 8
  else if Z.eqb e 102 then Some 12 else if Z.eqb e 110 then Some 10
  else if Z.eqb e 114 then Some 13 else if Z.eqb e 116 then Some 9
  else None.

(** [scanstring]: the body of a string after its opening quote; returns the
    decoded string (accumulated reversed) and the rest after the closing
    quote. *)
Fixpoint scan_str (s : list Z) (acc : list Z) : option (pystr * list Z) :=
  match s with
  | [] => None
  | 34 :: r => Some (rev acc, r)
  | 92 :: 117 :: a :: b :: c :: d :: r =>
      match hex4 a b c d with
      | None => None
      | Some u =>
          if is_high u then
            match r with
            | 92 :: 117 :: a2 :: b2 :: c2 :: d2 :: r2 =>
                match hex4 a2 b2 c2 d2 with
                | None => None
                | Some u2 =>
                    if is_low u2
                    then scan_str r2 (65536 + (u - 55296) * 1024 + (u2 - 56320) :: acc)
                    else scan_str r (u :: acc)
                end
            | _ => scan_str r (u :: acc)
            end
          else scan_str r (u :: acc)
      end
  | 92 :: 117 :: _ => None
  | 92 :: e :: r =>
      match simple_escape e with
      | Some c' => scan_str r (c' :: acc)
      | None => None
      end
  | 92 :: [] => None
  | c :: r => if c <=? 31 then None else scan_str r (c :: acc)
  end.

Fixpoint span_digits (s : list Z) : list Z * list Z :=
  match s with
  | c :: r => if is_digit c then let '(ds, r') := span_digits r in (c :: ds, r')
              else ([], s)
  | [] => ([], [])
  end.

Definition digits_value (ds : list Z) : Z :=
  fold_left (fun acc c => acc * 10 + (c - 48)) ds 0.

(** [_match_number_unicode]: an int, or a float kept as its literal; an
    int literal longer than [sys.get_int_max_str_digits()] (4300) raises. *)
Definition scan_number (s : list Z) : py_result (json * list Z) :=
  let '(neg, r) := match s with 45 :: r => (true, r) | _ => (false, s) end in
  let int_part :=
    match r with
    | 48 :: r1 => Some ([48], r1)
    | c :: r1 => if (49 <=? c) && (c <=? 57)
                 then let '(ds, r2) := span_digits r1 in Some (c :: ds, r2)
                 else None
    | [] => None
    end in
  match int_part with
  | None => Exc JSONDecodeError
  | Some (ip, r2) =>
      let '(frac, r3) :=
        match r2 with
        | 46 :: d :: r' => if is_digit d
                           then let '(fs, r'') := span_digits r' in (46 :: d :: fs, r'')
                           else ([], r2)
        | _ => ([], r2)
        end in
      let '(ex, r4) :=
        match r3 with
        | e :: r' =>
            if Z.eqb e 101 || Z.eqb e 69 then
              let '(sg, r'') := match r' with
                                | c :: q => if Z.eqb c 45 || Z.eqb c 43 then ([c], q) else ([], r')
                                | [] => ([], r') end in
              let '(ds, r''') := span_digits r'' in
              match ds with [] => ([], r3) | _ => (e :: sg ++ ds, r''') end
            else ([], r3)
        | [] => ([], r3)
        end in
      let lit := (if neg then [45] else []) ++ ip ++ frac ++ ex in
      match frac, ex with
      | [], [] =>
          if Nat.ltb 4300 (length ip) then Exc ValueError_digits
          else Ok (JInt (if neg then - digits_value ip else digits_value ip), r4)
      | _, _ => Ok (JFloat lit, r4)
      end
  end.

(** [scan_once_unicode], [_parse_object_unicode], [_parse_array_unicode].
    Every ['{'] and ['['] enters one level of the interpreter's recursion
    ([Py_EnterRecursiveCall]); [d] is the number of levels left before it
    raises [RecursionError].  The fuel [n] bounds the number of nested
    values and members; [loads] gives one unit per input character, and
    every call consumes a character. *)
Fixpoint scan_value (n d : nat) (s : list Z) : py_result (json * list Z) :=
  match n with
  | O => Exc JSONDecodeError
  | S n' =>
      match s with
      | 34 :: r => match scan_str r [] with
                   | Some (str, r') => Ok (JStr str, r')
                   | None => Exc JSONDecodeError
                   end
      | 123 :: r => match d with
                    | O => Exc RecursionError_
                    | S d' => match skip_ws r with
                              | 125 :: r' => Ok (JObj [], r')
                              | r' => scan_members n' d' [] r'
                              end
                    end
      | 91 :: r => match d with
                   | O => Exc RecursionError_
                   | S d' => match skip_ws r with
                             | 93 :: r' => Ok (JArr [], r')
                             | r' => scan_elems n' d' [] r'
                             end
                   end
      | 110 :: 117 :: 108 :: 108 :: r => Ok (JNull, r)
      | 116 :: 114 :: 117 :: 101 :: r => Ok (JBool true, r)
      | 102 :: 97 :: 108 :: 115 :: 101 :: r => Ok (JBool false, r)
      | 78 :: 97 :: 78 :: r => Ok (JFloat (pys "NaN"), r)
      | 73 :: 110 :: 102 :: 105 :: 110 :: 105 :: 116 :: 121 :: r =>
          Ok (JFloat (pys "Infinity"), r)
      | 45 :: 73 :: 110 :: 102 :: 105 :: 110 :: 105 :: 116 :: 121 :: r =>
          Ok (JFloat (pys "-Infinity"), r)
      | _ => scan_number s
      end
  end
with scan_members (n d : nat) (acc : list (pystr * json)) (s : list Z)
  : py_result (json * list Z) :=
  match n with
  | O => Exc JSONDecodeError
  | S n' =>
      match s with
      | 34 :: r =>
          match scan_str r [] with
          | None => Exc JSONDecodeError
          | Some (k, r1) =>
              match skip_ws r1 with
              | 58 :: r2 =>
                  match scan_value n' d (skip_ws r2) with
                  | Exc e => Exc e
                  | Ok (v, r3) =>
                      let acc' := dict_set acc k v in
                      match skip_ws r3 with
                      | 125 :: r4 => Ok (JObj acc', r4)
                      | 44 :: r4 => scan_members n' d acc' (skip_ws r4)
                      | _ => Exc JSONDecodeError
                      end
                  end
              | _ => Exc JSONDecodeError
              end
          end
      | _ => Exc JSONDecodeError
      end
  end
with scan_elems (n d : nat) (acc : list json) (s : list Z)
  : py_result (json * list Z) :=
  match n with
  | O => Exc JSONDecodeError
  | S n' =>
      match scan_value n' d s with
      | Exc e => Exc e
      | Ok (v, r) =>
          match skip_ws r with
          | 93 :: r' => Ok (JArr (acc ++ [v]), r')
          | 44 :: r' => scan_elems n' d (acc ++ [v]) (skip_ws r')
          | _ => Exc JSONDecodeError
          end
      end
  end.

(** [json.loads(s)] with [d] levels of recursion left: a leading BOM is
    refused, surrounding JSON whitespace is allowed, anything else after
    the value is "Extra data". *)
Definition loads (d : nat) (s : pystr) : py_result json :=
  match s with
  | 65279 :: _ => Exc JSONDecodeError
  | _ =>
      match scan_value (S (length s)) d (skip_ws s) with
      | Ok (v, r) => match skip_ws r with [] => Ok v | _ => Exc JSONDecodeError end
      | Exc e => Exc e
      end
  end.

End Json.

(* ------------------------------------------------------------------ *)
(** ** Primitives of the Python runtime and of the operating system *)

(** A match of [re.finditer]: its span and its groups ([None] for a group
    that did not participate). *)
Record re_match : Type := {
  m_start : nat;
  m_end : nat;
  m_group : nat -> option pystr
}.

(** A pattern compiled with [flags=re.S]: its number of groups, its named
    groups and the non-overlapping matches [re.finditer] yields, left to
    right. *)
Record re_pattern : Type := {
  p_groups : nat;
  p_groupindex : pystr -> option nat;
  p_finditer : pystr -> list re_match
}.

Record py_env : Type := {
  (** [(WORKSPACE_ROOT / s).resolve()], symlinks followed; [None] when it
      raises. *)
  env_resolve : path -> pystr -> option path;
  (** [re.compile(s, re.S)]: the pattern, or what it raises: [re.error],
      [OverflowError] for a repetition count that is too large,
      [RecursionError] for a pattern nested too deep. *)
  env_re_compile : pystr -> py_result re_pattern;
  env_isidentifier : pystr -> bool;
  (** [bool(float(lit))] and [int(float(lit))] ([None]: it raises). *)
  env_float_truthy : pystr -> bool;
  env_float_int : pystr -> option Z;
  (** [int(s)] on a [str] ([None]: it raises). *)
  env_str_int : pystr -> option Z;
  (** [str()] of the [re.error] that [re.compile(s, re.S)] raises; its
      text may quote a character of the pattern as it is (e.g. "unknown
      extension ?<c"). *)
  env_re_error : pystr -> pystr;
  (** The levels of recursion left when [json.loads] scans a reply (the
      C scanner enters one per ['{'] or ['[']), and when [main] calls
      [json.dumps(..., indent=2)] (one per list or dict). *)
  env_loads_depth : nat;
  env_dumps_depth : nat;
  (** The code points [sys.stdout] cannot encode.  The program prints
      emoji, so its output is UTF-8: these are the lone surrogates, all of
      them with the [strict] error handler, those outside
      [U+DC80..U+DCFF] with [surrogateescape] (UTF-8 mode). *)
  env_unencodable : Z -> bool
}.

(* ------------------------------------------------------------------ *)
(** ** [parse_first_json_block] *)

(** The greedy [\}] after a [\{] in [re.findall(r"(\{.*\})", text, re.S)]:
    the longest prefix ending in ['}'] and what follows it. *)
Fixpoint last_close (s : list Z) : option (list Z * list Z) :=
  match s with
  | [] => None
  | c :: r =>
      match last_close r with
      | Some (body, after) => Some (c :: body, after)
      | None => if Z.eqb c 125 then Some ([c], r) else None
      end
  end.

(** [re.findall(r"(\{.*\})", text, flags=re.S)]: scan left to right; at a
    ['{'] followed somewhere by a ['}'] take the greedy match and resume
    after it, otherwise move one character on. *)
Fixpoint findall_go (n : nat) (s : list Z) : list pystr :=
  match n with
  | O => []
  | S n' =>
      match s with
      | [] => []
      | c :: r =>
          if Z.eqb c 123 then
            match last_close r with
            | Some (body, after) => (c :: body) :: findall_go n' after
            | None => findall_go n' r
            end
          else findall_go n' r
      end
  end.

Definition findall_brace (s : pystr) : list pystr := findall_go (S (length s)) s.

(** [str.isspace] on a code point, the characters [str.strip()] removes. *)
Definition is_py_space (c : Z) : bool :=
  ((9 <=? c) && (c <=? 13)) || ((28 <=? c) && (c <=? 32)) || Z.eqb c 133
  || Z.eqb c 160 || Z.eqb c 5760 || ((8192 <=? c) && (c <=? 8202))
  || Z.eqb c 8232 || Z.eqb c 8233 || Z.eqb c 8239 || Z.eqb c 8287
  || Z.eqb c 12288.

Fixpoint lstrip (s : pystr) : pystr :=
  match s with
  | c :: r => if is_py_space c then lstrip r else s
  | [] => []
  end.

Definition py_strip (s : pystr) : pystr := rev (lstrip (rev (lstrip s))).

Definition startswith_brace (s : pystr) : bool :=
  match s with 123 :: _ => true | _ => false end.

Definition endswith_brace (s : pystr) : bool :=
  match rev s with 125 :: _ => true | _ => false end.

(** [parse_first_json_block], [json.loads] running with [d] levels of
    recursion left.  The candidates' exceptions are all caught; the
    fallback's propagate. *)
Definition parse_first_json_block (d : nat) (text : pystr) : py_result json :=
  let fix try_cands (cands : list pystr) : py_result json :=
    match cands with
    | cand :: rest =>
        match Json.loads d cand with
        | Ok v => Ok v
        | Exc _ => try_cands rest
        end
    | [] =>
        let text_stripped := py_strip text in
        if startswith_brace text_stripped && endswith_brace text_stripped then
          Json.loads d text_stripped
        else Exc ValueError_nojson
    end in
  try_cands (findall_brace text).

(** A brace-delimited span: the first ['{'] and a later last ['}']. *)
Definition brace_split (s pre body post : list Z) : Prop :=
  s = pre ++ [123] ++ body ++ [125] ++ post /\ ~ In 123 pre /\ ~ In 125 post.

(* ------------------------------------------------------------------ *)
(** ** The filesystem *)

(** A regular file holds UTF-8 text (its code points) or bytes that are
    not UTF-8. *)
Inductive file_data : Type := FText (s : pystr) | FUndecodable.

(** The writes performed on the filesystem, in order. *)
Inductive fs_event : Type :=
  | EvMkdir (p : path)
  | EvWrite (p : path) (s : pystr).

Record fs : Type := {
  fs_files : gmap path file_data;
  fs_dirs : gset path;
  fs_log : list fs_event
}.

(** Computations that read and write the filesystem and may raise. *)
Definition PyM (A : Type) : Type := fs -> fs * py_result A.

Definition pret {A} (a : A) : PyM A := fun st => (st, Ok a).
Definition praise {A} (e : py_exc) : PyM A := fun st => (st, Exc e).
Definition plift {A} (r : py_result A) : PyM A := fun st => (st, r).
Definition pbind {A B} (m : PyM A) (k : A -> PyM B) : PyM B :=
  fun st => match m st with
            | (st', Ok a) => k a st'
            | (st', Exc e) => (st', Exc e)
            end.

Notation "x <- m ;; k" := (pbind m (fun x => k))
  (at level 100, m at next level, right associativity).

Definition path_eqb (p q : path) : bool := bool_decide (p = q).

(** [p.parents]: the strict ancestors of [p], [/] included. *)
Fixpoint parents (p : path) : list path :=
  match p with
  | [] => []
  | x :: r => [] :: map (cons x) (parents r)
  end.

(** [p.parent] ([/] is its own parent). *)
Definition parent (p : path) : path :=
  match rev p with [] => [] | _ :: r => rev r end.

Definition is_file (st : fs) (p : path) : bool :=
  bool_decide (is_Some (fs_files st !! p)).

Definition is_dir (st : fs) (p : path) : bool := bool_decide (p ∈ fs_dirs st).

Definition add_dir (st : fs) (a : path) : fs :=
  if is_dir st a then st
  else {| fs_files := fs_files st; fs_dirs := {[a]} ∪ fs_dirs st;
          fs_log := fs_log st ++ [EvMkdir a] |}.

(** [q.mkdir(parents=True, exist_ok=True)]: it raises when [q] or one of its
    ancestors is a regular file, and otherwise creates the missing
    directories from the top down. *)
Definition mkdir_parents (q : path) : PyM unit := fun st =>
  let chain := parents q ++ [q] in
  if existsb (is_file st) chain then (st, Exc (OSError_ NotADirectoryOrExistsError))
  else (fold_left add_dir chain st, Ok tt).

(** [p.exists()]. *)
Definition path_exists (p : path) : PyM bool := fun st =>
  (st, Ok (is_file st p || is_dir st p)).

(** Universal newlines of text mode reading: ["\r\n"] and ["\r"] become
    ["\n"]. *)
Fixpoint translate_newlines (s : pystr) : pystr :=
  match s with
  | 13 :: 10 :: r => 10 :: translate_newlines r
  | 13 :: r => 10 :: translate_newlines r
  | c :: r => c :: translate_newlines r
  | [] => []
  end.

(** [p.read_text(encoding="utf-8")]. *)
Definition read_text (p : path) : PyM pystr := fun st =>
  if is_dir st p then (st, Exc (OSError_ IsADirectoryError))
  else match fs_files st !! p with
       | Some (FText s) => (st, Ok (translate_newlines s))
       | Some FUndecodable => (st, Exc UnicodeDecodeError_)
       | None => (st, Exc (OSError_ NotADirectoryOrExistsError))
       end.

Definition is_surrogate (c : Z) : bool := (55296 <=? c) && (c <=? 57343).

Definition set_file (st : fs) (p : path) (s : pystr) : fs :=
  {| fs_files := <[p := FText s]> (fs_files st); fs_dirs := fs_dirs st;
     fs_log := fs_log st ++ [EvWrite p s] |}.

(** [p.write_text(data, encoding="utf-8")]: [data] must be a [str]; the
    file is opened (created or truncated) before the text is encoded, so a
    lone surrogate leaves it empty. *)
Definition write_text (p : path) (data : json) : PyM unit := fun st =>
  match data with
  | JStr s =>
      if is_dir st p then (st, Exc (OSError_ IsADirectoryError))
      else if negb (is_dir st (parent p)) then (st, Exc (OSError_ NotADirectoryOrExistsError))
      else if existsb is_surrogate s then (set_file st p [], Exc UnicodeEncodeError_)
      else (set_file st p s, Ok tt)
  | _ => (st, Exc TypeError_)
  end.

(* ------------------------------------------------------------------ *)
(** ** Replacement templates of [re.subn] ([re._parser.parse_template]) *)

Inductive titem : Type := TLit (c : Z) | TGroup (g : nat).

Definition is_oct (c : Z) : bool := (48 <=? c) && (c <=? 55).

Definition is_ascii_letter (c : Z) : bool :=
  ((65 <=? c) && (c <=? 90)) || ((97 <=? c) && (c <=? 122)).

(** The one-letter escapes of [re._parser.ESCAPES]. *)
Definition tpl_escape (c : Z) : option Z :=
  if Z.eqb c 97 then Some 7 else if Z.eqb c 98 then Some 8
  else if Z.eqb c 102 then Some 12 else if Z.eqb c 110 then Some 10
  else if Z.eqb c 114 then Some 13 else if Z.eqb c 116 then Some 9
  else if Z.eqb c 118 then Some 11 else if Z.eqb c 92 then Some 92
  else None.

Definition digit_nat (c : Z) : nat := Z.to_nat (c - 48).

Definition digits_nat (ds : list Z) : nat :=
  fold_left (fun acc c => (acc * 10 + digit_nat c)%nat) ds O.

(** The name between [<] and [>] of [\g<name>] and what follows the [>]. *)
Fixpoint split_gt (s : pystr) : option (pystr * pystr) :=
  match s with
  | [] => None
  | c :: r => if Z.eqb c 62 then Some ([], r)
              else match split_gt r with
                   | Some (nm, rest) => Some (c :: nm, rest)
                   | None => None
                   end
  end.

Definition tcons (x : titem) (r : py_result (list titem)) : py_result (list titem) :=
  match r with Ok l => Ok (x :: l) | Exc e => Exc e end.

Section Template.
Context (isid : pystr -> bool) (cp : re_pattern).

Fixpoint parse_template_go (n : nat) (s : pystr) : py_result (list titem) :=
  match n with
  | O => Ok []
  | S n' =>
      let addgroup (i : nat) (rest : pystr) :=
        if Nat.ltb (p_groups cp) i then Exc ReError
        else tcons (TGroup i) (parse_template_go n' rest) in
      match s with
      | [] => Ok []
      | 92 :: [] => Exc ReError
      | 92 :: c :: r =>
          if Z.eqb c 103 then
            match r with
            | 60 :: r' =>
                match split_gt r' with
                | None => Exc ReError
                | Some ([], _) => Exc ReError
                | Some (name, rest) =>
                    if forallb Json.is_digit name then addgroup (digits_nat name) rest
                    else if isid name then
                      match p_groupindex cp name with
                      | Some i => addgroup i rest
                      | None => Exc IndexError_
                      end
                    else Exc ReError
                end
            | _ => Exc ReError
            end
          else if Z.eqb c 48 then
            match r with
            | d :: e :: r' =>
                if is_oct d then
                  if is_oct e
                  then tcons (TLit (Z.land ((d - 48) * 8 + (e - 48)) 255)) (parse_template_go n' r')
                  else tcons (TLit (d - 48)) (parse_template_go n' (e :: r'))
                else tcons (TLit 0) (parse_template_go n' r)
            | d :: [] =>
                if is_oct d then tcons (TLit (d - 48)) (parse_template_go n' [])
                else tcons (TLit 0) (parse_template_go n' r)
            | [] => tcons (TLit 0) (parse_template_go n' [])
            end
          else if Json.is_digit c then
            match r with
            | d :: r' =>
                if Json.is_digit d then
                  match r' with
                  | e :: r'' =>
                      if is_oct c && is_oct d && is_oct e then
                        let v := ((c - 48) * 8 + (d - 48)) * 8 + (e - 48) in
                        if 255 <? v then Exc ReError
                        else tcons (TLit v) (parse_template_go n' r'')
                      else addgroup (digit_nat c * 10 + digit_nat d)%nat r'
                  | [] => addgroup (digit_nat c * 10 + digit_nat d)%nat r'
                  end
                else addgroup (digit_nat c) r
            | [] => addgroup (digit_nat c) r
            end
          else
            match tpl_escape c with
            | Some v => tcons (TLit v) (parse_template_go n' r)
            | None =>
                if is_ascii_letter c then Exc ReError
                else tcons (TLit 92) (tcons (TLit c) (parse_template_go n' r))
            end
      | c :: r => tcons (TLit c) (parse_template_go n' r)
      end
  end.

Definition parse_template (s : pystr) : py_result (list titem) :=
  parse_template_go (S (length s)) s.

End Template.

(** A template expanded at one match (an unmatched group gives [""]). *)
Definition expand (items : list titem) (m : re_match) : pystr :=
  flat_map (fun it => match it with
                      | TLit c => [c]
                      | TGroup g => default [] (m_group m g)
                      end) items.

Fixpoint splice (text : pystr) (pos : nat) (items : list titem) (ms : list re_match)
  : pystr :=
  match ms with
  | [] => drop pos text
  | m :: r => take (m_start m - pos) (drop pos text) ++ expand items m
              ++ splice text (m_end m) items r
  end.

(* ------------------------------------------------------------------ *)
(** ** The change executor *)

(** The messages [apply_change] returns, one constructor per f-string. *)
Inductive change_msg : Type :=
  | MIncomplete                       (** "change incomplet (action/path manquant)." *)
  | MReplace (p : json)               (** "[replace] {path}" *)
  | MAppend (p : json)                (** "[append] {path}" *)
  | MNoFind                           (** "patch_block sans 'find'." *)
  | MRegexInvalid (find : json)       (** "regex invalide: {e}", [e] raised for [find] *)
  | MRegexNotFound (p : json)         (** "rien trouvé pour regex dans {path}" *)
  | MRegexOk (n : nat) (p : json)     (** "[patch_block/regex x{n}] {path}" *)
  | MBlockNotFound (p : json)         (** "bloc 'find' introuvable dans {path}" *)
  | MPatchOk (p : json)               (** "[patch_block] {path}" *)
  | MUnknownAction (a : json).        (** "action inconnue: {action}" *)

(** [str.find]: the index of the first occurrence of [pat] in [s]. *)
Fixpoint str_find (pat s : pystr) : option nat :=
  if bool_decide (pat `prefix_of` s) then Some O
  else match s with
       | [] => None
       | _ :: r => option_map S (str_find pat r)
       end.

(** [s.replace(old, new, 1)]. *)
Definition replace1 (old new s : pystr) : pystr :=
  match str_find old s with
  | Some i => take i s ++ new ++ drop (i + length old) s
  | None => s
  end.

Section Bridge.
Context (E : py_env) (WORKSPACE_ROOT : path).

Definition tr := truthy (env_float_truthy E).

(** [safe_relpath]. *)
Definition safe_relpath (path_str : json) : PyM path :=
  match path_str with
  | JStr s =>
      match env_resolve E WORKSPACE_ROOT s with
      | None => praise ResolveError
      | Some p =>
          if negb (existsb (path_eqb WORKSPACE_ROOT) (parents p))
             && negb (path_eqb p WORKSPACE_ROOT)
          then praise (ValueError_escape p)
          else pret p
      end
  | _ => praise TypeError_
  end.

(** [re.subn(find, content, text, flags=re.S)]: the pattern is compiled,
    then the template, then every match is replaced. *)
Definition re_subn (find content : json) (text : pystr) : py_result (pystr * nat) :=
  match find with
  | JStr pat =>
      match env_re_compile E pat with
      | Exc e => Exc e
      | Ok cp =>
          match content with
          | JStr repl =>
              match parse_template (env_isidentifier E) cp repl with
              | Exc e => Exc e
              | Ok items =>
                  let ms := p_finditer cp text in
                  Ok (splice text O items ms, length ms)
              end
          | _ => Exc TypeError_
          end
      end
  | _ => Exc TypeError_
  end.

(** [find in text]. *)
Definition str_contains (find : json) (text : pystr) : py_result bool :=
  match find with
  | JStr f => Ok (bool_decide (is_Some (str_find f text)))
  | _ => Exc TypeError_
  end.

Definition str_replace1 (find content : json) (text : pystr) : py_result json :=
  match find, content with
  | JStr f, JStr c => Ok (JStr (replace1 f c text))
  | _, _ => Exc TypeError_
  end.

(** [prev + content]. *)
Definition str_concat (prev : pystr) (content : json) : py_result json :=
  match content with JStr c => Ok (JStr (prev ++ c)) | _ => Exc TypeError_ end.

(** [target.read_text(encoding="utf-8") if target.exists() else ""]. *)
Definition read_or_empty (target : path) : PyM pystr :=
  ex <- path_exists target ;;
  if ex then read_text target else pret [].

Definition apply_change (change : json) : PyM (bool * change_msg) :=
  action <- plift (py_get change (pys "action") JNull) ;;
  path_v <- plift (py_get change (pys "path") JNull) ;;
  content <- plift (py_get change (pys "content") (JStr [])) ;;
  if negb (tr action) || negb (tr path_v) then pret (false, MIncomplete) else
  target <- safe_relpath path_v ;;
  _ <- mkdir_parents (parent target) ;;
  if json_is_str action (pys "replace") then
    _ <- write_text target content ;;
    pret (true, MReplace path_v)
  else if json_is_str action (pys "append") then
    prev <- read_or_empty target ;;
    data <- plift (str_concat prev content) ;;
    _ <- write_text target data ;;
    pret (true, MAppend path_v)
  else if json_is_str action (pys "patch_block") then
    find <- plift (py_get change (pys "find") JNull) ;;
    regex_v <- plift (py_get change (pys "regex") (JBool false)) ;;
    if negb (tr find) then pret (false, MNoFind) else
    text <- read_or_empty target ;;
    if tr regex_v then
      match re_subn find content text with
      | Exc ReError => pret (false, MRegexInvalid find)
      | Exc e => praise e
      | Ok (new_text, n) =>
          if Nat.eqb n 0 then pret (false, MRegexNotFound path_v)
          else _ <- write_text target (JStr new_text) ;;
               pret (true, MRegexOk n path_v)
      end
    else
      found <- plift (str_contains find text) ;;
      if negb found then pret (false, MBlockNotFound path_v) else
      new_text <- plift (str_replace1 find content text) ;;
      _ <- write_text target new_text ;;
      pret (true, MPatchOk path_v)
  else pret (false, MUnknownAction action).

(** [for ch in changes or []]: a list yields its items, a dict its keys, a
    string its characters; a truthy number or boolean is not iterable. *)
Definition iter_changes (changes : json) : py_result (list json) :=
  if negb (tr changes) then Ok [] else
  match changes with
  | JArr l => Ok l
  | JObj kvs => Ok (map (fun kv => JStr kv.1) kvs)
  | JStr s => Ok (map (fun c => JStr [c]) s)
  | _ => Exc TypeError_
  end.

(** A log line: its ✅/⚠️ marker and its text. *)
Inductive log_msg : Type := LMsg (m : change_msg) | LErr (e : py_exc).
Definition log_line : Type := bool * log_msg.

(** The [try]/[except Exception] of [apply_changes] around one change: the
    line of its result, or the failure line of the exception it raised. *)
Definition log_of (res : py_result (bool * change_msg)) : log_line :=
  match res with
  | Ok (ok, m) => (ok, LMsg m)
  | Exc e => (false, LErr e)
  end.

Fixpoint apply_all (l : list json) (st : fs) : fs * list log_line :=
  match l with
  | [] => (st, [])
  | ch :: r =>
      let '(st1, res) := apply_change ch st in
      let line := log_of res in
      let '(st2, rest) := apply_all r st1 in
      (st2, line :: rest)
  end.

Definition apply_changes (changes : json) : PyM (list log_line) := fun st =>
  match iter_changes changes with
  | Exc e => (st, Exc e)
  | Ok l => let '(st', logs) := apply_all l st in (st', Ok logs)
  end.

End Bridge.

(* ------------------------------------------------------------------ *)
(** ** The negotiation loop of [main] *)

Definition TURN_LIMIT : nat := 5.

(** [int(x)] on a JSON value. *)
Definition py_int (E : py_env) (v : json) : py_result Z :=
  match v with
  | JInt z => Ok z
  | JBool b => Ok (if b then 1 else 0)
  | JFloat lit => match env_float_int E lit with Some z => Ok z | None => Exc IntError end
  | JStr s => match env_str_int E s with Some z => Ok z | None => Exc IntError end
  | JNull | JArr _ | JObj _ => Exc IntError
  end.

Definition rbind {A B} (r : py_result A) (k : A -> py_result B) : py_result B :=
  match r with Ok a => k a | Exc e => Exc e end.

(** The backend calls made by a run, in order. *)
Inductive call : Type := CallProposer (t : nat) | CallReviewer (t : nat).

(** What a call to the Anthropic or the OpenAI API gives: the text of the
    reply (the text parts of [r.content] joined, [message.content or ""]),
    or an exception and its [str()]. *)
Inductive reply : Type :=
  | Reply (text : pystr)
  | Raises (msg : pystr).

(** What [input(...)] gives: a line, [EOFError], or [UnicodeDecodeError]
    on a line standard input cannot decode. *)
Inductive input_result : Type :=
  | InLine (s : pystr)
  | InEOF
  | InUndecodable.

(** How the [while turn < TURN_LIMIT] loop is left. *)
Inductive loop_exit : Type :=
  | LCommit (logs : list log_line)   (** double 5/5: the changes applied; the [print] of
                                         their logs and the [return] follow in [main] *)
  | LBreak (e : py_exc)              (** "❌ Claude erreur" / "❌ Codex erreur", [break] *)
  | LBound                           (** [turn == TURN_LIMIT] *)
  | LCrash (e : py_exc).             (** an exception nothing catches *)

(** The loop's exit and the locals [main] reads after it ([None]: never
    assigned). *)
Record loop_out : Type := {
  lo_exit : loop_exit;
  lo_c_changes : option json;
  lo_d_changes : option json;
  lo_fs : fs;
  lo_calls : list call
}.

(** What the manual gate after the loop does. *)
Inductive gate : Type :=
  | GNoCandidate                     (** "Aucune modification proposée à appliquer." *)
  | GDeclined (cand : json)          (** "Aucune modification appliquée." *)
  | GApplied (cand : json) (logs : list log_line).

Inductive run_end : Type :=
  | Commit (logs : list log_line)
  | AfterLoop (cause : option py_exc) (g : gate)   (** [None]: the bound was reached *)
  | Crash (e : py_exc)
  | Exit1.                                         (** [sys.exit(1)] *)

Record run : Type := {
  r_end : run_end;
  r_fs : fs;
  r_calls : list call
}.

(** [input(...).strip().lower() == "o"], [EOFError] standing for the
    answer ["n"]; the only code points whose lower case is ["o"] are ["o"]
    and ["O"]. *)
Definition is_yes (answer : input_result) : bool :=
  match answer with
  | InLine a => let s := py_strip a in pystr_eqb s (pys "o") || pystr_eqb s (pys "O")
  | InEOF | InUndecodable => false
  end.

(** The nesting depth [json.dumps] recurses to: one level per list or
    dict. *)
Fixpoint json_depth (v : json) : nat :=
  match v with
  | JArr l =>
      S ((fix go (l : list json) : nat :=
            match l with [] => O | x :: r => Nat.max (json_depth x) (go r) end) l)
  | JObj kvs =>
      S ((fix go (kvs : list (pystr * json)) : nat :=
            match kvs with [] => O | (_, x) :: r => Nat.max (json_depth x) (go r) end) kvs)
  | _ => O
  end.

Section Main.
Context (E : py_env) (WORKSPACE_ROOT : path).
(** The replies of the Proposer (Claude) and of the Reviewer (Codex) at
    each turn.  A run's prompts are determined by the earlier replies, so
    the replies indexed by turn describe any run. *)
Context (claude_reply codex_reply : nat -> reply).

(** [ask_claude] and [ask_codex]. *)
Definition ask (r : reply) : py_result json :=
  match r with
  | Raises _ => Exc BackendError
  | Reply text => parse_first_json_block (env_loads_depth E) text
  end.

(** [print] of a text. *)
Definition print_text (s : pystr) : py_result unit :=
  if existsb (env_unencodable E) s then Exc UnicodeEncodeError_ else Ok tt.

Definition text_prints (s : pystr) : bool := negb (existsb (env_unencodable E) s).

(** [str()] of a [Path]: its components joined by ['/']. *)
Definition path_prints (p : path) : bool := forallb text_prints p.

(** [print(x)] and [print(f"- {x}")] of a JSON value: [str()] of a [str] is
    the text itself; of any other value it is made of [repr]s, which escape
    the lone surrogates. *)
Definition print_value (v : json) : py_result unit :=
  match v with JStr s => print_text s | _ => Ok tt end.

Definition value_prints (v : json) : bool :=
  match v with JStr s => text_prints s | _ => true end.

(** [json.dumps(v, ensure_ascii=False, indent=2)]. *)
Definition dumps_indent (v : json) : py_result unit :=
  if Nat.ltb (env_dumps_depth E) (json_depth v) then Exc RecursionError_ else Ok tt.

(** Lines 225-232 (and 247-254) once the score is read: the summary and
    the advice are read ([.get] cannot fail on the dict the score was read
    from), the transcript entry formats
    [json.dumps(changes, ensure_ascii=False, indent=2)], then
    [print(summary)] and, when the advice is truthy,
    [print(f"- {advice}")]. *)
Definition show_reply (j changes : json) : py_result unit :=
  rbind (py_get j (pys "summary") (JStr [])) (fun summary =>
  rbind (py_get j (pys "advice") (JStr [])) (fun advice =>
  rbind (dumps_indent changes) (fun _ =>
  rbind (print_value summary) (fun _ =>
  if tr E advice then print_value advice else Ok tt)))).

(** [print(f"❌ Claude erreur: {e}")]: the messages of the parser's
    exceptions are fixed texts and positions; an API exception's is its
    own. *)
Definition print_error (r : reply) : py_result unit :=
  match r with Raises msg => print_text msg | Reply _ => Ok tt end.

(** The text of a log line: [str()] of the [path] or the [action]; of the
    [re.error] (raised by [re.compile] on the pattern; those of the
    template quote with [repr]); of the exception ([str()] of the guard's
    [ValueError] holds the resolved path, the other messages quote with
    [repr]). *)
Definition line_prints (l : log_line) : bool :=
  match l.2 with
  | LMsg (MReplace p) | LMsg (MAppend p) | LMsg (MRegexNotFound p) | LMsg (MRegexOk _ p)
  | LMsg (MBlockNotFound p) | LMsg (MPatchOk p) | LMsg (MUnknownAction p) => value_prints p
  | LMsg (MRegexInvalid (JStr pat)) =>
      match env_re_compile E pat with
      | Exc ReError => text_prints (env_re_error E pat)
      | _ => true
      end
  | LErr (ValueError_escape p) => path_prints p
  | _ => true
  end.

(** [print("\n".join(logs))]. *)
Definition print_logs (logs : list log_line) : py_result unit :=
  if forallb line_prints logs then Ok tt else Exc UnicodeEncodeError_.

(** Whether [json.dumps(v, ensure_ascii=False)] holds a code point [print]
    refuses: every string and key is written as it is (only quotes,
    backslashes and control characters are escaped). *)
Fixpoint json_unprintable (v : json) : bool :=
  match v with
  | JStr s => negb (text_prints s)
  | JArr l =>
      (fix go (l : list json) : bool :=
         match l with [] => false | x :: r => json_unprintable x || go r end) l
  | JObj kvs =>
      (fix go (kvs : list (pystr * json)) : bool :=
         match kvs with
         | [] => false
         | (k, x) :: r => negb (text_prints k) || json_unprintable x || go r
         end) kvs
  | _ => false
  end.

(** Line 282: [print(json.dumps(candidate, ensure_ascii=False, indent=2))]. *)
Definition preview (cand : json) : py_result unit :=
  rbind (dumps_indent cand) (fun _ =>
    if json_unprintable cand then Exc UnicodeEncodeError_ else Ok tt).

(** The [while] loop from [turn], [k] turns before the bound.
    [json.dumps(claude_json, ensure_ascii=False)] (lines 235 and 265, the C
    encoder) does not fail: it enters one level of recursion per level the
    C scanner entered to decode the same value, from a shallower call. *)
Fixpoint loop (k : nat) (turn : nat) (c_changes d_changes : option json)
  (st : fs) (calls : list call) : loop_out :=
  match k with
  | O => Build_loop_out LBound c_changes d_changes st calls
  | S k' =>
      let calls1 := calls ++ [CallProposer turn] in
      match ask (claude_reply turn) with
      | Exc e =>
          match print_error (claude_reply turn) with
          | Ok _ => Build_loop_out (LBreak e) c_changes d_changes st calls1
          | Exc e' => Build_loop_out (LCrash e') c_changes d_changes st calls1
          end
      | Ok claude_json =>
          match rbind (py_get claude_json (pys "score") (JInt 1)) (py_int E) with
          | Exc e => Build_loop_out (LCrash e) c_changes d_changes st calls1
          | Ok c_score =>
              match py_get claude_json (pys "changes") (JArr []) with
              | Exc e => Build_loop_out (LCrash e) c_changes d_changes st calls1
              | Ok c_ch =>
                  match show_reply claude_json c_ch with
                  | Exc e => Build_loop_out (LCrash e) (Some c_ch) d_changes st calls1
                  | Ok _ =>
                      let calls2 := calls1 ++ [CallReviewer turn] in
                      match ask (codex_reply turn) with
                      | Exc e =>
                          match print_error (codex_reply turn) with
                          | Ok _ => Build_loop_out (LBreak e) (Some c_ch) d_changes st calls2
                          | Exc e' => Build_loop_out (LCrash e') (Some c_ch) d_changes st calls2
                          end
                      | Ok codex_json =>
                          match rbind (py_get codex_json (pys "score") (JInt 1)) (py_int E) with
                          | Exc e => Build_loop_out (LCrash e) (Some c_ch) d_changes st calls2
                          | Ok d_score =>
                              match py_get codex_json (pys "changes") (JArr []) with
                              | Exc e => Build_loop_out (LCrash e) (Some c_ch) d_changes st calls2
                              | Ok d_ch =>
                                  match show_reply codex_json d_ch with
                                  | Exc e =>
                                      Build_loop_out (LCrash e) (Some c_ch) (Some d_ch) st calls2
                                  | Ok _ =>
                                      if Z.eqb c_score 5 && Z.eqb d_score 5 then
                                        let chosen := if tr E d_ch then d_ch else c_ch in
                                        match apply_changes E WORKSPACE_ROOT chosen st with
                                        | (st', Ok logs) =>
                                            Build_loop_out (LCommit logs) (Some c_ch) (Some d_ch)
                                              st' calls2
                                        | (st', Exc e) =>
                                            Build_loop_out (LCrash e) (Some c_ch) (Some d_ch)
                                              st' calls2
                                        end
                                      else loop k' (S turn) (Some c_ch) (Some d_ch) st calls2
                                  end
                              end
                          end
                      end
                  end
              end
          end
      end
  end.

(** [main]: [user_question] is [" ".join(sys.argv[1:])] or, without
    arguments, what [input("> ")] gives (stripped); [answer] is what
    [input] gives at the manual gate. *)
Definition main (user_question answer : input_result) (st : fs) : run :=
  if negb (path_prints WORKSPACE_ROOT)
  then Build_run (Crash UnicodeEncodeError_) st []
  else if negb (is_file st WORKSPACE_ROOT || is_dir st WORKSPACE_ROOT)
  then Build_run Exit1 st []
  else
  match user_question with
  | InEOF => Build_run (Crash EOFError_) st []
  | InUndecodable => Build_run (Crash UnicodeDecodeError_) st []
  | InLine q =>
  if bool_decide (q = []) then Build_run Exit1 st []
  else
  let lo := loop TURN_LIMIT O None None st [] in
  let after (cause : option py_exc) : run :=
    let last_codex := JObj [] in
    let candidate :=
      if tr E last_codex then rbind (py_get last_codex (pys "changes") JNull) Ok
      else match lo_d_changes lo with
           | Some d => Ok d
           | None => Exc (UnboundLocalError_ "d_changes")
           end in
    let candidate :=
      rbind candidate (fun cand =>
        if negb (tr E cand) then
          match lo_c_changes lo with
          | Some c => Ok c
          | None => Exc (UnboundLocalError_ "c_changes")
          end
        else Ok cand) in
    match candidate with
    | Exc e => Build_run (Crash e) (lo_fs lo) (lo_calls lo)
    | Ok cand =>
        if negb (tr E cand) then Build_run (AfterLoop cause GNoCandidate) (lo_fs lo) (lo_calls lo)
        else
        match preview cand with
        | Exc e => Build_run (Crash e) (lo_fs lo) (lo_calls lo)
        | Ok _ =>
            match answer with
            | InUndecodable => Build_run (Crash UnicodeDecodeError_) (lo_fs lo) (lo_calls lo)
            | _ =>
                if is_yes answer then
                  match apply_changes E WORKSPACE_ROOT cand (lo_fs lo) with
                  | (st', Ok logs) =>
                      match print_logs logs with
                      | Ok _ => Build_run (AfterLoop cause (GApplied cand logs)) st' (lo_calls lo)
                      | Exc e => Build_run (Crash e) st' (lo_calls lo)
                      end
                  | (st', Exc e) => Build_run (Crash e) st' (lo_calls lo)
                  end
                else Build_run (AfterLoop cause (GDeclined cand)) (lo_fs lo) (lo_calls lo)
            end
        end
    end in
  match lo_exit lo with
  | LCommit logs =>
      match print_logs logs with
      | Ok _ => Build_run (Commit logs) (lo_fs lo) (lo_calls lo)
      | Exc e => Build_run (Crash e) (lo_fs lo) (lo_calls lo)
      end
  | LCrash e => Build_run (Crash e) (lo_fs lo) (lo_calls lo)
  | LBreak e => after (Some e)
  | LBound => after None
  end
  end.

End Main.

(* ------------------------------------------------------------------ *)
(** ** A concrete runtime for running examples *)

Module Concrete.

Fixpoint split_slash_go (s : pystr) (cur : pystr) : list pystr :=
  match s with
  | [] => [rev cur]
  | c :: r => if Z.eqb c 47 then rev cur :: split_slash_go r [] else split_slash_go r (c :: cur)
  end.

(** [Path.resolve] on a filesystem without symbolic links: an absolute
    argument replaces the root, [.] and empty components are dropped, [..]
    removes the last component ([/..] is [/]); a NUL character raises. *)
Definition lex_resolve (root : path) (s : pystr) : option path :=
  if existsb (Z.eqb 0) s then None else
  let base := match s with 47 :: _ => [] | _ => root end in
  Some (fold_left (fun acc seg =>
          if bool_decide (seg = []) || pystr_eqb seg (pys ".") then acc
          else if pystr_eqb seg (pys "..") then removelast acc
          else acc ++ [seg]) (split_slash_go s []) base).

Definition plain_char (c : Z) : bool :=
  Json.is_digit c || is_ascii_letter c || Z.eqb c 32.

Fixpoint literal_matches (n : nat) (pat : pystr) (s : pystr) (pos : nat) : list re_match :=
  match n with
  | O => []
  | S n' =>
      match s with
      | [] => []
      | _ :: r =>
          if bool_decide (pat `prefix_of` s) then
            {| m_start := pos; m_end := pos + length pat; m_group := fun g =>
                 if Nat.eqb g 0 then Some pat else None |}%nat
            :: literal_matches n' pat (drop (length pat) s) (pos + length pat)%nat
          else literal_matches n' pat r (S pos)
      end
  end.

(** Python's engine on non-empty patterns made of letters, digits and
    spaces, which have no group and match themselves; the other patterns
    are outside this instance and are mapped to [re.error]. *)
Definition literal_compile (pat : pystr) : py_result re_pattern :=
  if negb (bool_decide (pat = [])) && forallb plain_char pat then
    Ok {| p_groups := O; p_groupindex := fun _ => None;
          p_finditer := fun s => literal_matches (S (length s)) pat s O |}
  else Exc ReError.

(** The compiled pattern of [pat] (an empty pattern where it does not
    compile). *)
Definition compiled (pat : pystr) : re_pattern :=
  match literal_compile pat with
  | Ok cp => cp
  | Exc _ => Build_re_pattern O (fun _ => None) (fun _ => [])
  end.

Definition env : py_env := {|
  env_resolve := lex_resolve;
  env_re_compile := literal_compile;
  env_isidentifier := fun s => negb (bool_decide (s = [])) &&
                                forallb (fun c => is_ascii_letter c || Z.eqb c 95) s;
  env_float_truthy := fun _ => true;
  env_float_int := fun _ => None;
  env_str_int := fun _ => None;
  env_re_error := fun _ => pys "bad pattern";
  env_loads_depth := 990;
  env_dumps_depth := 995;
  env_unencodable := is_surrogate
|}.

(** The workspace [/ws], an existing directory. *)
Definition ws : path := [pys "ws"].

Definition fs0 : fs := {| fs_files := ∅; fs_dirs := {[ []; ws ]}; fs_log := [] |}.

Definition file_at (st : fs) (rel : string) : option file_data :=
  fs_files st !! (ws ++ [pys rel]).

(** A JSON text written with ['] for the double quote. *)
Definition pyq (s : string) : pystr :=
  map (fun c => if Z.eqb c 39 then 34 else c) (pys s).

(** The question asked on the command line. *)
Definition question : input_result := InLine (pys "why does the login fail").

(** Backend replies: the same text at every turn. *)
Definition always (r : string) : nat -> reply := fun _ => Reply (pyq r).

(** The convergence run: both sides score 5 on turn 0, the Reviewer
    replacing [notes.txt] by [hello]. *)
Definition claude_conv : nat -> reply :=
  always "Sure: {'score': 5, 'summary': 'ok'} done".
Definition codex_conv : nat -> reply :=
  always "{'score': 5, 'changes': [{'action': 'replace', 'path': 'notes.txt', 'content': 'hello'}]}".

(** A run whose Proposer answers without JSON on turn 1, after a turn 0
    where both sides scored 3 and the Reviewer proposed a write. *)
Definition claude_late_fail : nat -> reply := fun t =>
  match t with
  | O => Reply (pyq "{'score': 3}")
  | _ => Reply (pyq "I cannot answer in JSON today.")
  end.
Definition codex_hi : nat -> reply :=
  always "{'score': 3, 'changes': [{'action': 'replace', 'path': 'notes.txt', 'content': 'hi'}]}".


(** The exhaustion run: both sides score 3 at every turn. *)
Definition score3 : nat -> reply := always "{'score': 3}".

(** Out-of-range scores: 7 from the Proposer, 0 from the Reviewer. *)
Definition score7 : nat -> reply := always "{'score': 7}".
Definition score0 : nat -> reply := always "{'score': 0}".

(** A Proposer whose score is [null]. *)
Definition score_null : nat -> reply := always "{'score': null}".

(** [/ws/a.txt] holding [x]. *)
Definition fs_a : fs := {| fs_files := {[ ws ++ [pys "a.txt"] := FText (pys "x") ]};
  fs_dirs := {[ []; ws ]}; fs_log := [] |}.

(** A regex [patch_block] of [a.txt] replacing [x] by [content]. *)
Definition regex_op (content : string) : json :=
  JObj [(pys "action", JStr (pys "patch_block")); (pys "path", JStr (pys "a.txt"));
        (pys "find", JStr (pys "x")); (pys "regex", JBool true);
        (pys "content", JStr (pys content))].

(** A [replace] of [path]. *)
Definition replace_kvs (path content : string) : list (pystr * json) :=
  [(pys "action", JStr (pys "replace")); (pys "path", JStr (pys path));
   (pys "content", JStr (pys content))].

(** An operation with only an action and a path. *)
Definition bare_kvs (action path : string) : list (pystr * json) :=
  [(pys "action", JStr (pys action)); (pys "path", JStr (pys path))].

(** A literal [patch_block] of [a.txt]. *)
Definition patch_kvs (find content : string) : list (pystr * json) :=
  [(pys "action", JStr (pys "patch_block")); (pys "path", JStr (pys "a.txt"));
   (pys "find", JStr (pys find)); (pys "content", JStr (pys content))].

(** [/ws/a.txt] holding [x x]. *)
Definition fs_xx : fs := {| fs_files := {[ ws ++ [pys "a.txt"] := FText (pys "x x") ]};
  fs_dirs := {[ []; ws ]}; fs_log := [] |}.

(** [/ws/a.bin], a file that is not valid UTF-8. *)
Definition fs_bin : fs := {| fs_files := {[ ws ++ [pys "a.bin"] := FUndecodable ]};
  fs_dirs := {[ []; ws ]}; fs_log := [] |}.

(** A [replace] of [a.txt] whose content is given as code points. *)
Definition replace_cps (content : pystr) : list (pystr * json) :=
  [(pys "action", JStr (pys "replace")); (pys "path", JStr (pys "a.txt"));
   (pys "content", JStr content)].

(** A regex [patch_block] of [a.txt], as a key list. *)
Definition regex_kvs (find content : string) : list (pystr * json) :=
  [(pys "action", JStr (pys "patch_block")); (pys "path", JStr (pys "a.txt"));
   (pys "find", JStr (pys find)); (pys "regex", JBool true);
   (pys "content", JStr (pys content))].

(** An [append] of [content] to [path]. *)
Definition append_kvs (path content : string) : list (pystr * json) :=
  [(pys "action", JStr (pys "append")); (pys "path", JStr (pys path));
   (pys "content", JStr (pys content))].

(** A Reviewer scoring 5 and replacing [notes.txt] by [hello], whose
    summary is a lone surrogate ([\ud800], written with a JSON escape). *)
Definition codex_surrogate : nat -> reply := fun _ =>
  Reply (pyq "{'score': 5, 'summary': '" ++ [92; 117; 100; 56; 48; 48]
         ++ pyq "', 'changes': [{'action': 'replace', 'path': 'notes.txt', 'content': 'hello'}]}").

(** A literal [patch_block] of [a.txt] whose find and content are given as
    code points. *)
Definition patch_cps (find content : pystr) : list (pystr * json) :=
  [(pys "action", JStr (pys "patch_block")); (pys "path", JStr (pys "a.txt"));
   (pys "find", JStr find); (pys "content", JStr content)].

(** [/ws/a.txt] holding the code points [raw] on disk. *)
Definition fs_raw (raw : pystr) : fs := {| fs_files := {[ ws ++ [pys "a.txt"] := FText raw ]};
  fs_dirs := {[ []; ws ]}; fs_log := [] |}.

End Concrete.

(* ------------------------------------------------------------------ *)
(** ** Frame condition *)

(** A computation [m] frames [P] when it leaves the file at every path
    outside [P] as it was. *)
Definition frames (P : path -> Prop) {A} (m : PyM A) : Prop :=
  forall st q, ~ P q -> fs_files (m st).1 !! q = fs_files st !! q.

(** A computation [m] returns values satisfying [P] and raises only
    exceptions satisfying [Q]. *)
Definition returns {A} (P : A -> Prop) (Q : py_exc -> Prop) (m : PyM A) : Prop :=
  forall st, match (m st).2 with Ok a => P a | Exc e => Q e end.

(** The messages [apply_change] returns with [False]. *)
Definition failure_msg (m : change_msg) : bool :=
  match m with
  | MIncomplete | MNoFind | MRegexInvalid _ | MRegexNotFound _ | MBlockNotFound _
  | MUnknownAction _ => true
  | MReplace _ | MAppend _ | MRegexOk _ _ | MPatchOk _ => false
  end.

(** The exceptions [apply_change] can raise whatever the runtime:
    the guard's [ValueError], [resolve] failing, type errors of non-[str]
    fields, [.get] on a non-dict, I/O errors, encoding and decoding errors,
    an unknown group name in a template. *)
Definition change_exc (e : py_exc) : bool :=
  match e with
  | ValueError_escape _ | ResolveError | TypeError_ | AttributeError_ | OSError_ _
  | UnicodeEncodeError_ | UnicodeDecodeError_ | IndexError_ => true
  | _ => false
  end.

(* ------------------------------------------------------------------ *)
(** ** Turns of the loop *)

(** The calls of the first [n] turns, each of them complete. *)
Definition sched (n : nat) : list call :=
  flat_map (fun t => [CallProposer t; CallReviewer t]) (seq 0 n).

(** The [changes] of a reply that parses. *)
Definition reply_changes (E : py_env) (r : reply) : option json :=
  match ask E r with
  | Ok j => match py_get j (pys "changes") (JArr []) with Ok c => Some c | Exc _ => None end
  | Exc _ => None
  end.

(** The [changes] of one side at the turn before [t] ([None] at turn 0). *)
Definition prev_changes (E : py_env) (replies : nat -> reply) (t : nat) : option json :=
  match t with O => None | S t' => reply_changes E (replies t') end.


(* ------------------------------------------------------------------ *)
(** * Lemmas *)

Lemma parents_spec (p q : path) :
  In q (parents p) <-> exists r, r <> [] /\ p = q ++ r.
Proof.
  revert q. induction p as [|x p IH]; intros q; simpl.
  - split; [tauto|]. intros (r & Hr & Heq).
    destruct q; simpl in Heq; [subst; congruence | discriminate].
  - rewrite in_map_iff. split.
    + intros [<-|(q' & <- & Hq')].
      * exists (x :: p). split; [discriminate|reflexivity].
      * apply IH in Hq' as (r & Hr & ->). exists r. split; [exact Hr|reflexivity].
    + intros (r & Hr & Heq). destruct q as [|y q'].
      * left. reflexivity.
      * right. simpl in Heq. injection Heq as -> Hp. exists q'. split; [reflexivity|].
        apply IH. exists r. split; [exact Hr|exact Hp].
Qed.

(** The guard of [safe_relpath] decides equality to, or strict descent
    from, the root. *)
Lemma guard_spec (root p : path) :
  (negb (existsb (path_eqb root) (parents p)) && negb (path_eqb p root)) = false
  <-> p = root \/ exists r, r <> [] /\ p = root ++ r.
Proof.
  rewrite andb_false_iff, !negb_false_iff, existsb_exists.
  unfold path_eqb. rewrite bool_decide_eq_true. split.
  - intros [(q & Hq & Heq)|Heq].
    + apply bool_decide_eq_true in Heq. subst q. right. apply parents_spec. exact Hq.
    + left. exact Heq.
  - intros [->|Hd].
    + right. reflexivity.
    + left. exists root. split; [apply parents_spec; exact Hd|].
      apply bool_decide_eq_true. reflexivity.
Qed.

Lemma fold_add_dir_files (chain : list path) (st : fs) :
  fs_files (fold_left add_dir chain st) = fs_files st.
Proof.
  revert st. induction chain as [|a chain IH]; intros st; simpl; [reflexivity|].
  rewrite IH. unfold add_dir. destruct (is_dir st a); reflexivity.
Qed.



Lemma fold_add_dir_dirs (chain : list path) (st : fs) (q : path) :
  q ∈ fs_dirs (fold_left add_dir chain st) <-> In q chain \/ q ∈ fs_dirs st.
Proof.
  revert st. induction chain as [|a chain IH]; intros st; cbn [fold_left In].
  { split; [intros H; right; exact H | intros [[]|H]; exact H]. }
  rewrite IH. unfold add_dir, is_dir. destruct (bool_decide (a ∈ fs_dirs st)) eqn:Ha.
  - apply bool_decide_eq_true in Ha. cbn. split.
    + intros [H|H]; [left; right; exact H | right; exact H].
    + intros [[->|H]|H]; [right; exact Ha | left; exact H | right; exact H].
  - cbn [fs_dirs]. rewrite elem_of_union, elem_of_singleton. split.
    + intros [H|[->|H]]; [left; right; exact H | left; left; reflexivity | right; exact H].
    + intros [[->|H]|H]; [right; left; reflexivity | left; exact H | right; right; exact H].
Qed.

Lemma fold_add_dir_parents (chain : list path) (st : fs) :
  fs_files (fold_left add_dir chain st) = fs_files st /\
  forall q, In q chain -> q ∈ fs_dirs (fold_left add_dir chain st).
Proof.
  split; [apply fold_add_dir_files|]. intros q Hq. apply fold_add_dir_dirs. left. exact Hq.
Qed.

(** [apply_all] never raises and logs one line per change. *)
Lemma apply_all_length (E : py_env) (root : path) (l : list json) (st : fs) :
  length (apply_all E root l st).2 = length l.
Proof.
  revert st. induction l as [|ch l IH]; intros st; simpl; [reflexivity|].
  destruct (apply_change E root ch st) as [st1 res].
  specialize (IH st1). destruct (apply_all E root l st1) as [st2 rest]. simpl in *. lia.
Qed.

Lemma apply_changes_arr (E : py_env) (root : path) (l : list json) (st : fs) :
  apply_changes E root (JArr l) st =
  ((apply_all E root l st).1, Ok (apply_all E root l st).2).
Proof.
  unfold apply_changes, iter_changes, tr. simpl.
  destruct (bool_decide (l = [])) eqn:Hl; simpl.
  - apply bool_decide_eq_true in Hl. subst. reflexivity.
  - destruct (apply_all E root l st). reflexivity.
Qed.

(** [str_find] returns the leftmost occurrence. *)
Lemma str_find_some (pat s : pystr) (i : nat) :
  str_find pat s = Some i ->
  pat `prefix_of` drop i s /\ forall j, (j < i)%nat -> ~ pat `prefix_of` drop j s.
Proof.
  revert i. induction s as [|x r IH]; intros i H; simpl in H.
  - destruct (bool_decide (pat `prefix_of` [])) eqn:B; [|discriminate].
    injection H as <-. apply bool_decide_eq_true in B. split; [exact B|lia].
  - destruct (bool_decide (pat `prefix_of` x :: r)) eqn:B.
    + injection H as <-. apply bool_decide_eq_true in B. split; [exact B|lia].
    + apply bool_decide_eq_false in B.
      destruct (str_find pat r) as [i'|] eqn:H'; simpl in H; [|discriminate].
      injection H as <-. destruct (IH i' eq_refl) as [Hp Hmin]. split; [exact Hp|].
      intros [|j] Hj; [exact B|]. apply Hmin. lia.
Qed.

Lemma str_find_none (pat s : pystr) :
  str_find pat s = None -> forall j, ~ pat `prefix_of` drop j s.
Proof.
  induction s as [|x r IH]; intros H j; simpl in H.
  - destruct (bool_decide (pat `prefix_of` [])) eqn:B; [discriminate|].
    apply bool_decide_eq_false in B. rewrite drop_nil. exact B.
  - destruct (bool_decide (pat `prefix_of` x :: r)) eqn:B; [discriminate|].
    apply bool_decide_eq_false in B.
    destruct (str_find pat r) eqn:H'; simpl in H; [discriminate|].
    destruct j as [|j]; [exact B|]. apply IH. reflexivity.
Qed.

Lemma str_find_split (pat s : pystr) (i : nat) :
  str_find pat s = Some i -> s = take i s ++ pat ++ drop (i + length pat) s.
Proof.
  intros H. destruct (str_find_some pat s i H) as [[rest Hr] _].
  rewrite <- drop_drop, Hr, drop_app_length. rewrite <- Hr. symmetry. apply take_drop.
Qed.

(** [replace1] replaces the leftmost occurrence. *)
Lemma replace1_leftmost (f c text pre post : pystr) :
  text = pre ++ f ++ post ->
  (forall pre' post', text = pre' ++ f ++ post' -> (length pre <= length pre')%nat) ->
  replace1 f c text = pre ++ c ++ post.
Proof.
  intros Ht Hleft. unfold replace1.
  assert (Hat : f `prefix_of` drop (length pre) text).
  { rewrite Ht, drop_app_length. exists post. reflexivity. }
  destruct (str_find f text) as [i|] eqn:H.
  - destruct (str_find_some f text i H) as [_ Hmin].
    assert (Hle : (i <= length pre)%nat).
    { destruct (Nat.le_gt_cases i (length pre)) as [L|L]; [exact L|].
      exfalso. exact (Hmin _ L Hat). }
    pose proof (str_find_split f text i H) as Hs.
    specialize (Hleft _ _ Hs). rewrite length_take in Hleft.
    assert (i = length pre) as -> by lia.
    rewrite Ht at 1. rewrite take_app_length.
    rewrite Ht, <- drop_drop, !drop_app_length. reflexivity.
  - exfalso. exact (str_find_none f text H _ Hat).
Qed.

Lemma replace1_absent (f text : pystr) :
  ~ (exists pre post, text = pre ++ f ++ post) -> str_find f text = None.
Proof.
  intros Hn. destruct (str_find f text) as [i|] eqn:H; [|reflexivity].
  exfalso. apply Hn. eexists _, _. exact (str_find_split f text i H).
Qed.

Lemma parent_shorter (p : path) : p <> [] -> (length (parent p) < length p)%nat.
Proof.
  intros Hp. unfold parent.
  destruct (rev p) as [|x r] eqn:Hr.
  - apply (f_equal (@rev _)) in Hr. rewrite rev_involutive in Hr. simpl in Hr. contradiction.
  - apply (f_equal (@length _)) in Hr. rewrite length_rev in Hr. simpl in Hr.
    rewrite length_rev. lia.
Qed.

Lemma chain_not_self (p : path) : p <> [] -> ~ In p (parents (parent p) ++ [parent p]).
Proof.
  intros Hp Hin. pose proof (parent_shorter p Hp) as L.
  apply in_app_or in Hin as [Hin|[Hin|[]]].
  - apply parents_spec in Hin as (r & _ & Heq).
    apply (f_equal (@length _)) in Heq. rewrite length_app in Heq. lia.
  - rewrite Hin in L. lia.
Qed.

(** [re.findall] yields at most one candidate: the span from the first
    ['{'] to the last ['}']. *)
Lemma last_close_some (s body after : list Z) :
  last_close s = Some (body, after) ->
  s = body ++ after /\ (exists b, body = b ++ [125]) /\ ~ In 125 after.
Proof.
  revert body after. induction s as [|c r IH]; intros body after H; simpl in H; [discriminate|].
  destruct (last_close r) as [[b a]|] eqn:E.
  - injection H as <- <-. destruct (IH b a eq_refl) as (-> & (b' & ->) & Ha).
    split; [reflexivity|]. split; [exists (c :: b'); reflexivity|exact Ha].
  - destruct (Z.eqb_spec c 125) as [->|]; [|discriminate]. injection H as <- <-.
    split; [reflexivity|]. split; [exists []; reflexivity|].
    intros Hin. clear IH. induction r as [|x r' IH']; [exact Hin|].
    simpl in E. destruct (last_close r') as [[? ?]|]; [discriminate|].
    destruct (Z.eqb_spec x 125); [discriminate|].
    destruct Hin as [->|Hin]; [contradiction|exact (IH' E Hin)].
Qed.

Lemma last_close_none (s : list Z) : last_close s = None -> ~ In 125 s.
Proof.
  induction s as [|c r IH]; intros H Hin; [exact Hin|]. simpl in H.
  destruct (last_close r) as [[? ?]|]; [discriminate|].
  destruct (Z.eqb_spec c 125); [discriminate|].
  destruct Hin as [->|Hin]; [contradiction|exact (IH eq_refl Hin)].
Qed.

Lemma findall_go_noclose (n : nat) (s : list Z) : ~ In 125 s -> findall_go n s = [].
Proof.
  revert s. induction n as [|n IH]; intros s Hs; [reflexivity|].
  destruct s as [|c r]; [reflexivity|]. simpl.
  assert (Hr : ~ In 125 r) by (intros H; apply Hs; right; exact H).
  destruct (Z.eqb c 123); [|exact (IH r Hr)].
  destruct (last_close r) as [[b a]|] eqn:E; [|exact (IH r Hr)].
  exfalso. destruct (last_close_some r b a E) as (-> & (b' & ->) & _).
  apply Hr. apply in_or_app. left. apply in_or_app. right. left. reflexivity.
Qed.

Lemma findall_go_cases (n : nat) (s : list Z) : (length s < n)%nat ->
  (findall_go n s = [] /\ ~ exists pre body post, s = pre ++ [123] ++ body ++ [125] ++ post) \/
  (exists pre body post, brace_split s pre body post /\
     findall_go n s = [[123] ++ body ++ [125]]).
Proof.
  revert s. induction n as [|n IH]; intros s Hn; [simpl in Hn; lia|].
  destruct s as [|c r].
  - left. split; [reflexivity|]. intros (pre & body & post & H).
    destruct pre; discriminate.
  - simpl. simpl in Hn.
    destruct (Z.eqb_spec c 123) as [->|Hc].
    + destruct (last_close r) as [[b a]|] eqn:E.
      * right. destruct (last_close_some r b a E) as (-> & (b' & ->) & Ha).
        exists [], b', a. split; [split; [|split]|].
        -- simpl. rewrite <- !app_assoc. reflexivity.
        -- intros [].
        -- exact Ha.
        -- rewrite (findall_go_noclose n a Ha). reflexivity.
      * left. split; [exact (findall_go_noclose n r (last_close_none r E))|].
        intros (pre & body & post & H). apply (last_close_none r E).
        destruct pre as [|x pre]; simpl in H.
        -- injection H as H. subst r. apply in_or_app. right. left. reflexivity.
        -- injection H as _ H. subst r. apply in_or_app. right. right. apply in_or_app. right. left. reflexivity.
    + destruct (IH r ltac:(lia)) as [[H1 H2]|(pre & body & post & (Hs & Hp & Hq) & H1)].
      * left. split; [exact H1|]. intros (pre & body & post & H). apply H2.
        destruct pre as [|x pre]; simpl in H; injection H as Hx H.
        -- contradiction.
        -- exists pre, body, post. exact H.
      * right. exists (c :: pre), body, post. split; [split; [|split]|].
        -- rewrite Hs. reflexivity.
        -- intros [H|H]; [congruence|contradiction].
        -- exact Hq.
        -- exact H1.
Qed.

Lemma first_occ_unique (a : Z) (p1 p2 x1 x2 : list Z) :
  ~ In a p1 -> ~ In a p2 -> p1 ++ a :: x1 = p2 ++ a :: x2 -> p1 = p2 /\ x1 = x2.
Proof.
  revert p2. induction p1 as [|y p1 IH]; intros p2 H1 H2 H; destruct p2 as [|z p2]; simpl in H.
  - injection H as ->. split; reflexivity.
  - injection H as -> _. exfalso. apply H2. left. reflexivity.
  - injection H as <- _. exfalso. apply H1. left. reflexivity.
  - injection H as <- H. destruct (IH p2) as [-> ->].
    + intros Hi; apply H1; right; exact Hi.
    + intros Hi; apply H2; right; exact Hi.
    + exact H.
    + split; reflexivity.
Qed.

Lemma brace_split_unique (s pre body post pre' body' post' : list Z) :
  brace_split s pre body post -> brace_split s pre' body' post' -> body = body'.
Proof.
  intros (H & Hp & Hq) (H' & Hp' & Hq'). rewrite H in H'. simpl in H'.
  destruct (first_occ_unique 123 pre pre' _ _ Hp Hp' H') as [_ E].
  apply (f_equal (@rev Z)) in E. rewrite !rev_app_distr in E. simpl in E.
  rewrite <- !app_assoc in E. simpl in E.
  apply first_occ_unique in E as [_ E].
  - apply (f_equal (@rev Z)) in E. rewrite !rev_involutive in E. exact E.
  - rewrite <- in_rev. exact Hq.
  - rewrite <- in_rev. exact Hq'.
Qed.

Lemma lstrip_split (s : pystr) :
  exists w, s = w ++ lstrip s /\ Forall (fun c => is_py_space c = true) w.
Proof.
  induction s as [|c r IH]; simpl.
  - exists []. split; [reflexivity|constructor].
  - destruct (is_py_space c) eqn:Hc.
    + destruct IH as (w & Hw & Fw). exists (c :: w). split; [rewrite Hw at 1; reflexivity|].
      constructor; assumption.
    + exists []. split; [reflexivity|constructor].
Qed.

Lemma py_strip_split (s : pystr) :
  exists w1 w2, s = w1 ++ py_strip s ++ w2 /\
    Forall (fun c => is_py_space c = true) w1 /\ Forall (fun c => is_py_space c = true) w2.
Proof.
  destruct (lstrip_split s) as (w1 & H1 & F1).
  destruct (lstrip_split (rev (lstrip s))) as (w2 & H2 & F2).
  exists w1, (rev w2). split; [|split; [exact F1|apply Forall_rev; exact F2]].
  unfold py_strip. rewrite H1 at 1. f_equal.
  apply (f_equal (@rev Z)) in H2. rewrite rev_involutive, rev_app_distr in H2. exact H2.
Qed.

Lemma not_in_spaces (a : Z) (w : pystr) :
  is_py_space a = false -> Forall (fun c => is_py_space c = true) w -> ~ In a w.
Proof.
  intros Ha Fw Hin. rewrite List.Forall_forall in Fw. rewrite (Fw a Hin) in Ha. discriminate.
Qed.

Lemma braces_shape (t : pystr) :
  startswith_brace t && endswith_brace t = true -> exists body, t = [123] ++ body ++ [125].
Proof.
  intros H. apply andb_prop in H as [H1 H2].
  destruct t as [|c m]; [discriminate|]. unfold startswith_brace in H1.
  assert (Hc : c = 123).
  { destruct c as [|p|p]; try discriminate; repeat (destruct p as [p|p|]; try discriminate); reflexivity. }
  subst c.
  destruct m as [|x m] using rev_ind.
  - discriminate.
  - unfold endswith_brace in H2. rewrite app_comm_cons, rev_app_distr in H2. simpl in H2.
    assert (Hx : x = 125).
    { destruct x as [|p|p]; try discriminate; repeat (destruct p as [p|p|]; try discriminate); reflexivity. }
    subst x.
    exists m. reflexivity.
Qed.



Lemma loop_step_continue (E : py_env) (root : path) (cr dr : nat -> reply)
  (k turn : nat) (cc dc : option json) (st : fs) (calls : list call)
  (cj dj : json) (c d : Z) (cch dch : json) :
  ask E (cr turn) = Ok cj -> ask E (dr turn) = Ok dj ->
  rbind (py_get cj (pys "score") (JInt 1)) (py_int E) = Ok c ->
  rbind (py_get dj (pys "score") (JInt 1)) (py_int E) = Ok d ->
  py_get cj (pys "changes") (JArr []) = Ok cch ->
  py_get dj (pys "changes") (JArr []) = Ok dch ->
  show_reply E cj cch = Ok tt -> show_reply E dj dch = Ok tt ->
  (c =? 5) && (d =? 5) = false ->
  loop E root cr dr (S k) turn cc dc st calls =
  loop E root cr dr k (S turn) (Some cch) (Some dch) st
    (calls ++ [CallProposer turn; CallReviewer turn]).
Proof.
  intros Hc Hd Hcs Hds Hcc Hdc Hsc Hsd H5. cbn [loop].
  rewrite Hc. cbv beta iota. rewrite Hcs. cbv beta iota. rewrite Hcc. cbv beta iota.
  rewrite Hsc. cbv beta iota.
  rewrite Hd. cbv beta iota. rewrite Hds. cbv beta iota. rewrite Hdc. cbv beta iota.
  rewrite Hsd. cbv beta iota.
  rewrite H5. rewrite <- app_assoc. reflexivity.
Qed.

Lemma prev_changes_next (E : py_env) (replies : nat -> reply) (t : nat) (j ch : json) :
  ask E (replies t) = Ok j -> py_get j (pys "changes") (JArr []) = Ok ch ->
  prev_changes E replies (S t) = Some ch.
Proof. intros H1 H2. cbn [prev_changes]. unfold reply_changes. rewrite H1, H2. reflexivity. Qed.

Lemma sched_step (turn m : nat) :
  [CallProposer turn; CallReviewer turn]
    ++ flat_map (fun i => [CallProposer i; CallReviewer i]) (seq (S turn) m)
  = flat_map (fun i => [CallProposer i; CallReviewer i]) (seq turn (S m)).
Proof. reflexivity. Qed.


(** How the loop ends at the bound: every turn made both calls and the
    locals hold the changes of the last turn. *)
Lemma loop_bound_shape (E : py_env) (root : path) (cr dr : nat -> reply) (k : nat) :
  forall turn st calls,
  let lo := loop E root cr dr k turn (prev_changes E cr turn) (prev_changes E dr turn) st calls in
  lo_exit lo = LBound ->
  lo_fs lo = st /\
  lo_calls lo = calls ++ flat_map (fun i => [CallProposer i; CallReviewer i]) (seq turn k) /\
  lo_c_changes lo = prev_changes E cr (turn + k) /\ lo_d_changes lo = prev_changes E dr (turn + k) /\
  (k = O \/ is_Some (prev_changes E cr (turn + k)) /\ is_Some (prev_changes E dr (turn + k))).
Proof.
  induction k as [|k IH]; intros turn st calls lo Hb; subst lo.
  { cbn. rewrite app_nil_r, Nat.add_0_r. repeat split; auto. }
  revert Hb. cbn [loop].
  destruct (ask E (cr turn)) as [cj|e0] eqn:Ha.
  2:{ destruct (print_error E (cr turn)); discriminate. }
  destruct (rbind (py_get cj (pys "score") (JInt 1)) (py_int E)) as [c|e0] eqn:Hcs;
    [|discriminate].
  destruct (py_get cj (pys "changes") (JArr [])) as [cch|e0] eqn:Hcc; [|discriminate].
  destruct (show_reply E cj cch) as [[]|e0] eqn:Hsc; [|discriminate].
  destruct (ask E (dr turn)) as [dj|e0] eqn:Hd.
  2:{ destruct (print_error E (dr turn)); discriminate. }
  destruct (rbind (py_get dj (pys "score") (JInt 1)) (py_int E)) as [d|e0] eqn:Hds;
    [|discriminate].
  destruct (py_get dj (pys "changes") (JArr [])) as [dch|e0] eqn:Hdc; [|discriminate].
  destruct (show_reply E dj dch) as [[]|e0] eqn:Hsd; [|discriminate].
  destruct ((c =? 5) && (d =? 5)).
  { destruct (apply_changes E root _ st) as [st' [|]]; discriminate. }
  pose proof (prev_changes_next E cr turn cj cch Ha Hcc) as Pc.
  pose proof (prev_changes_next E dr turn dj dch Hd Hdc) as Pd.
  rewrite <- Pc, <- Pd. intros Hb.
  destruct (IH (S turn) st ((calls ++ [CallProposer turn]) ++ [CallReviewer turn]) Hb)
    as (H1 & H2 & H3 & H4 & H5).
  replace (turn + S k)%nat with (S turn + k)%nat by lia.
  split; [exact H1|]. split.
  { rewrite H2, <- sched_step, <- !app_assoc. reflexivity. }
  split; [exact H3|]. split; [exact H4|].
  right. destruct H5 as [->|H5]; [|exact H5].
  rewrite Nat.add_0_r, Pc, Pd. split; eexists; reflexivity.
Qed.

(** The outcomes of [apply_change]. *)
Lemma returns_bind {A B} (P : B -> Prop) (Q : py_exc -> Prop) (P' : A -> Prop)
  (m : PyM A) (k : A -> PyM B) :
  returns P' Q m -> (forall a, P' a -> returns P Q (k a)) -> returns P Q (pbind m k).
Proof.
  intros Hm Hk st. specialize (Hm st). unfold pbind.
  destruct (m st) as [st' [a|e]]; cbn [snd] in *; [apply Hk; exact Hm|exact Hm].
Qed.

Lemma returns_ret {A} (P : A -> Prop) Q (a : A) : P a -> returns P Q (pret a).
Proof. intros H st. exact H. Qed.

Lemma returns_raise {A} (P : A -> Prop) (Q : py_exc -> Prop) e : Q e -> returns P Q (praise e).
Proof. intros H st. exact H. Qed.

Lemma returns_lift {A} (Q : py_exc -> Prop) (r : py_result A) :
  (forall e, r = Exc e -> Q e) -> returns (fun _ => True) Q (plift r).
Proof. intros H st. unfold plift. cbn [snd]. destruct r; [exact I|apply H; reflexivity]. Qed.

Section ChangeOutcomes.
Context (E : py_env) (root : path).

Definition change_raises (e : py_exc) : Prop :=
  change_exc e = true \/ (e <> ReError /\ exists pat, env_re_compile E pat = Exc e).

Lemma returns_safe_relpath v : returns (fun _ => True) change_raises (safe_relpath E root v).
Proof.
  intros st. unfold safe_relpath, praise, pret.
  destruct v; try (left; reflexivity).
  destruct (env_resolve E root s); [|left; reflexivity].
  destruct (_ && _); [left; reflexivity|exact I].
Qed.

Lemma returns_mkdir q : returns (fun _ => True) change_raises (mkdir_parents q).
Proof. intros st. unfold mkdir_parents. destruct (existsb _ _); [left; reflexivity|exact I]. Qed.

Lemma returns_write p d : returns (fun _ => True) change_raises (write_text p d).
Proof.
  intros st. unfold write_text. destruct d; try (left; reflexivity).
  destruct (is_dir st p); [left; reflexivity|].
  destruct (negb _); [left; reflexivity|].
  destruct (existsb _ _); [left; reflexivity|exact I].
Qed.

Lemma returns_read_or_empty p : returns (fun _ => True) change_raises (read_or_empty p).
Proof.
  unfold read_or_empty. apply returns_bind with (P' := fun _ => True).
  - intros st. exact I.
  - intros ex _. destruct ex; [|apply returns_ret; exact I].
    intros st. unfold read_text. destruct (is_dir st p); [left; reflexivity|].
    destruct (fs_files st !! p) as [[]|]; cbn; first [exact I | left; reflexivity].
Qed.

Lemma parse_template_go_exc isid cp (n : nat) :
  forall s e, parse_template_go isid cp n s = Exc e -> e = ReError \/ e = IndexError_.
Proof.
  induction n as [|n IH]; intros s e H; [discriminate|].
  cbn [parse_template_go] in H.
  repeat match type of H with
  | tcons _ (tcons _ ?r) = Exc _ =>
      destruct r eqn:?; cbn [tcons] in H; [discriminate|injection H as ->; eauto]
  | tcons _ ?r = Exc _ =>
      destruct r eqn:?; cbn [tcons] in H; [discriminate|injection H as ->; eauto]
  | Exc _ = Exc _ => injection H as <-; auto
  | Ok _ = Exc _ => discriminate
  | context [match ?x with _ => _ end] => destruct x
  | context [if ?b then _ else _] => destruct b
  end.
Qed.

Lemma re_subn_exc find content text e :
  re_subn E find content text = Exc e ->
  e = ReError \/ e = IndexError_ \/ e = TypeError_ \/ exists pat, env_re_compile E pat = Exc e.
Proof.
  unfold re_subn. destruct find; try (intros H; injection H as <-; auto).
  destruct (env_re_compile E s) as [cp|e0] eqn:Hc.
  - destruct content; try (intros H; injection H as <-; auto).
    unfold parse_template. destruct (parse_template_go _ _ _ _) eqn:Ht; [discriminate|].
    intros H. injection H as <-. destruct (parse_template_go_exc _ _ _ _ _ Ht) as [->| ->]; auto.
  - intros H. injection H as <-. right. right. right. exists s. exact Hc.
Qed.

Lemma apply_change_returns ch :
  returns (fun r => failure_msg r.2 = negb r.1) change_raises (apply_change E root ch).
Proof.
  unfold apply_change.
  repeat first
    [ apply returns_ret; reflexivity
    | eapply returns_bind;
        [ first [ apply returns_lift; intros ? He;
                  cbv delta [py_get str_concat str_contains str_replace1] beta in He;
                  repeat match type of He with
                         | context [match ?x with _ => _ end] => destruct x
                         end;
                  first [ discriminate | injection He as <-; left; reflexivity ]
                | apply returns_safe_relpath | apply returns_mkdir | apply returns_write
                | apply returns_read_or_empty ]
        | intros ? _ ]
    | match goal with
      | |- returns _ _ (if ?b then _ else _) => destruct b
      | |- returns _ _ (match ?x with _ => _ end) =>
          lazymatch x with re_subn _ _ _ _ => idtac end;
          destruct x as [[nt n]|e] eqn:Hre;
          [ destruct (Nat.eqb n 0); [apply returns_ret; reflexivity|]
          | destruct e; first [ apply returns_ret; reflexivity | apply returns_raise ] ]
      end ].
  all: try (left; reflexivity).
  all: right; split; [discriminate|];
       match goal with Hre : re_subn _ _ _ _ = Exc ?e |- _ =>
         destruct (re_subn_exc _ _ _ _ Hre) as [H|[H|[H|H]]]; [discriminate..|exact H] end.
Qed.

End ChangeOutcomes.

Lemma apply_all_nth (E : py_env) (root : path) (l : list json) :
  forall st i ch, l !! i = Some ch ->
  (apply_all E root l st).2 !! i
  = Some (log_of (apply_change E root ch (apply_all E root (take i l) st).1).2).
Proof.
  induction l as [|x l IH]; intros st i ch H; [discriminate|].
  destruct i as [|i]; cbn in H.
  - injection H as <-. cbn [apply_all take fst].
    destruct (apply_change E root x st) as [st1 res].
    destruct (apply_all E root l st1). reflexivity.
  - cbn [apply_all take]. destruct (apply_change E root x st) as [st1 res] eqn:Ha.
    specialize (IH st1 i ch H).
    destruct (apply_all E root l st1) as [st2 rest] eqn:Hl.
    destruct (apply_all E root (take i l) st1) as [st3 rest3] eqn:Ht.
    cbn in *. exact IH.
Qed.

(** The manual gate after the loop stopped on a failure or at the bound. *)
Lemma gate_cases (E : py_env) (root : path) (cr dr : nat -> reply) (q : pystr)
  (answer : input_result) (st : fs) (cause : option py_exc) :
  path_prints E root = true -> is_file st root || is_dir st root = true -> q <> [] ->
  (lo_exit (loop E root cr dr TURN_LIMIT O None None st []) = LBound /\ cause = None)
  \/ (exists e, lo_exit (loop E root cr dr TURN_LIMIT O None None st []) = LBreak e
                /\ cause = Some e) ->
  let lo := loop E root cr dr TURN_LIMIT O None None st [] in
  let r := main E root cr dr (InLine q) answer st in
  r_calls r = lo_calls lo
  /\ (is_yes answer = false -> r_fs r = lo_fs lo)
  /\ (lo_d_changes lo = None -> r_end r = Crash (UnboundLocalError_ "d_changes") /\ r_fs r = lo_fs lo)
  /\ (forall c d, lo_c_changes lo = Some c -> lo_d_changes lo = Some d ->
      let cand := if tr E d then d else c in
      (tr E cand = false -> r_end r = AfterLoop cause GNoCandidate)
      /\ (forall x, tr E cand = true -> preview E cand = Exc x -> r_end r = Crash x)
      /\ (tr E cand = true -> preview E cand = Ok tt -> answer = InUndecodable ->
          r_end r = Crash UnicodeDecodeError_)
      /\ (tr E cand = true -> preview E cand = Ok tt -> answer <> InUndecodable ->
          is_yes answer = false -> r_end r = AfterLoop cause (GDeclined cand))
      /\ (tr E cand = true -> preview E cand = Ok tt -> is_yes answer = true ->
          r_fs r = (apply_changes E root cand (lo_fs lo)).1
          /\ (forall logs, (apply_changes E root cand (lo_fs lo)).2 = Ok logs ->
              print_logs E logs = Ok tt -> r_end r = AfterLoop cause (GApplied cand logs)))).
Proof.
  intros Hp Hr Hq Hx lo r. subst lo r. unfold main. rewrite Hp, Hr. cbn [negb].
  rewrite (bool_decide_eq_false_2 _ Hq).
  destruct (loop E root cr dr TURN_LIMIT 0 None None st []) as [ex cc dc f calls].
  cbn [lo_exit lo_c_changes lo_d_changes lo_fs lo_calls] in *.
  assert (Hl : tr E (JObj []) = false) by reflexivity.
  destruct Hx as [[-> ->]|(e & -> & ->)]; cbv beta iota zeta; rewrite Hl; cbn [negb];
  (destruct dc as [d|]; [destruct cc as [c|]|]); cbn [rbind].
  all: repeat split; intros; simplify_eq; cbn [r_calls r_fs r_end] in *.
  all: repeat (first
    [ match goal with |- context [match ?x with _ => _ end] =>
        lazymatch x with negb ?y => destruct y eqn:? | _ => destruct x eqn:? end end
    | match goal with H : context [match ?x with _ => _ end] |- _ =>
        lazymatch x with negb ?y => destruct y eqn:? | _ => destruct x eqn:? end end ];
    cbn [negb r_calls r_fs r_end fst snd] in *; simplify_eq);
    try reflexivity; try congruence.
  all: match goal with H : apply_changes _ _ _ _ = _ |- _ =>
         rewrite H in *; cbn [fst snd] in *; simplify_eq; try reflexivity; congruence end.
Qed.

(* ------------------------------------------------------------------ *)
(** * Claims *)

(** ** The executor's failures *)

(** C1 (as the code has it): [apply_change] returns [(False, reason)]
    for a change with no action or path, a [patch_block] with no [find],
    an unknown action, a regex that raises [re.error], a regex with no
    match and a literal [find] absent from the file; it returns [True]
    only with the success messages; it raises for everything else: the
    guard's [ValueError], [resolve] failing, a non-dict change, non-[str]
    fields, I/O errors, encoding and decoding errors, an unknown group
    name in a template, and the other exceptions of [re.compile]
    ([OverflowError], [RecursionError]).  [apply_changes] catches every
    exception an operation raises: on any list of operations it returns
    normally with one log line per operation, in order, each the result
    of that operation run after the ones before it, and an operation that
    raised [e] gets the failure line carrying [e]. *)
Theorem apply_changes_total (E : py_env) (root : path) :
  (forall ch st st' ok m,
     apply_change E root ch st = (st', Ok (ok, m)) -> failure_msg m = negb ok)
  /\ (forall ch st st' e,
     apply_change E root ch st = (st', Exc e) ->
     change_exc e = true \/ (e <> ReError /\ exists pat, env_re_compile E pat = Exc e))
  /\ (forall (l : list json) (st : fs), exists st' logs,
     apply_changes E root (JArr l) st = (st', Ok logs) /\ length logs = length l /\
     forall i ch, l !! i = Some ch ->
       logs !! i = Some (log_of (apply_change E root ch (apply_all E root (take i l) st).1).2)).
Proof.
  split; [|split].
  - intros ch st st' ok m H. pose proof (apply_change_returns E root ch st) as R.
    rewrite H in R. exact R.
  - intros ch st st' e H. pose proof (apply_change_returns E root ch st) as R.
    rewrite H in R. exact R.
  - intros l st. rewrite apply_changes_arr.
    exists (apply_all E root l st).1, (apply_all E root l st).2.
    split; [reflexivity|]. split; [apply apply_all_length|].
    intros i ch Hi. apply apply_all_nth. exact Hi.
Qed.

(** C1, the executor raising: a [replace] of [../x] makes [apply_change]
    raise the path-escape [ValueError] instead of returning a failure. *)
Lemma apply_change_raises_on_escape :
  apply_change Concrete.env Concrete.ws (JObj (Concrete.replace_kvs "../x" "data")) Concrete.fs0
  = (Concrete.fs0, Exc (ValueError_escape [pys "x"])).
Proof. vm_compute. reflexivity. Qed.

(** C1, an instance: the escaping [replace] raises one of the listed
    exceptions. *)
Lemma apply_changes_total_witness :
  change_exc (ValueError_escape [pys "y"]) = true
  \/ (ValueError_escape [pys "y"] <> ReError
      /\ exists pat, env_re_compile Concrete.env pat = Exc (ValueError_escape [pys "y"])).
Proof.
  apply (proj1 (proj2 (apply_changes_total Concrete.env Concrete.ws))
    (JObj (Concrete.replace_kvs "../y" "data")) Concrete.fs0 Concrete.fs0).
  vm_compute. reflexivity.
Defined.

(** ** The path guard *)

(** C2: an operation whose path string resolves (symlinks followed) to
    neither the workspace root nor a strict descendant of it makes
    [apply_change] raise the path-escape [ValueError] before any write, and
    [apply_changes] records it as a failed edit; the filesystem is left
    as it was.  This holds whatever [Path.resolve] does with [..] segments,
    absolute paths or symbolic links. *)
Theorem path_escape_rejected (E : py_env) (root : path) (kvs : list (pystr * json))
  (a : json) (s : pystr) (p : path) (st : fs) :
  assoc_get kvs (pys "action") = Some a -> tr E a = true ->
  assoc_get kvs (pys "path") = Some (JStr s) -> s <> [] ->
  env_resolve E root s = Some p ->
  p <> root -> ~ (exists r, r <> [] /\ p = root ++ r) ->
  apply_change E root (JObj kvs) st = (st, Exc (ValueError_escape p)) /\
  apply_changes E root (JArr [JObj kvs]) st = (st, Ok [(false, LErr (ValueError_escape p))]).
Proof.
  intros Ha Htr Hp Hs Hres Hne Hnd.
  assert (Hg : (negb (existsb (path_eqb root) (parents p)) && negb (path_eqb p root)) = true).
  { destruct (_ && _) eqn:G; [reflexivity|].
    apply guard_spec in G as [G|G]; contradiction. }
  assert (Hap : apply_change E root (JObj kvs) st = (st, Exc (ValueError_escape p))).
  { unfold apply_change, pbind, plift, pret, praise, py_get. rewrite Ha, Hp, Htr.
    assert (Hs' : tr E (JStr s) = true).
    { unfold tr, truthy. rewrite (bool_decide_eq_false_2 _ Hs). reflexivity. }
    rewrite Hs'. simpl. unfold safe_relpath, praise. rewrite Hres, Hg. reflexivity. }
  split; [exact Hap|].
  rewrite apply_changes_arr. simpl. rewrite Hap. reflexivity.
Qed.

(** C2, an instance: [../etc/passwd] from [/ws]. *)
Lemma path_escape_rejected_witness :
  apply_changes Concrete.env Concrete.ws (JArr [JObj (Concrete.replace_kvs "../etc/passwd" "x")])
    Concrete.fs0
  = (Concrete.fs0, Ok [(false, LErr (ValueError_escape [pys "etc"; pys "passwd"]))]).
Proof.
  apply (path_escape_rejected Concrete.env Concrete.ws (Concrete.replace_kvs "../etc/passwd" "x")
           (JStr (pys "replace")) (pys "../etc/passwd") [pys "etc"; pys "passwd"] Concrete.fs0).
  - reflexivity.
  - reflexivity.
  - reflexivity.
  - vm_compute. discriminate.
  - vm_compute. reflexivity.
  - vm_compute. discriminate.
  - intros (r & _ & H). vm_compute in H. discriminate.
Defined.

(** ** Convergence *)

(** C3 (as the code has it): when both the Proposer's and the Reviewer's
    scores are 5 on some turn and both replies print (the transcript
    formats their changes, [print] accepts their summaries and advice),
    that turn ends the loop in a commit after one more (Proposer,
    Reviewer) pair of calls, applying the Reviewer's changes when that
    list is non-empty and the Proposer's otherwise; the convergence run on
    turn 0 makes exactly the two calls and leaves [notes.txt] holding
    [hello]. *)
Theorem double_five_commit (E : py_env) (root : path) (cr dr : nat -> reply)
  (k turn : nat) (cc dc : option json) (st : fs) (calls : list call)
  (cj dj : json) (cl dl : list json) :
  ask E (cr turn) = Ok cj -> ask E (dr turn) = Ok dj ->
  rbind (py_get cj (pys "score") (JInt 1)) (py_int E) = Ok 5 ->
  rbind (py_get dj (pys "score") (JInt 1)) (py_int E) = Ok 5 ->
  py_get cj (pys "changes") (JArr []) = Ok (JArr cl) ->
  py_get dj (pys "changes") (JArr []) = Ok (JArr dl) ->
  show_reply E cj (JArr cl) = Ok tt -> show_reply E dj (JArr dl) = Ok tt ->
  loop E root cr dr (S k) turn cc dc st calls =
    (let '(st', logs) := apply_all E root (if bool_decide (dl = []) then cl else dl) st in
     Build_loop_out (LCommit logs) (Some (JArr cl)) (Some (JArr dl)) st'
       (calls ++ [CallProposer turn; CallReviewer turn]))
  /\ (let r := main Concrete.env Concrete.ws Concrete.claude_conv Concrete.codex_conv
                 Concrete.question InEOF Concrete.fs0 in
      r_end r = Commit [(true, LMsg (MReplace (JStr (pys "notes.txt"))))]
      /\ r_calls r = [CallProposer 0; CallReviewer 0]
      /\ Concrete.file_at (r_fs r) "notes.txt" = Some (FText (pys "hello"))).
Proof.
  intros Hc Hd Hcs Hds Hcc Hdc Hsc Hsd. split.
  - cbn [loop].
    rewrite Hc. cbv beta iota. rewrite Hcs. cbv beta iota. rewrite Hcc. cbv beta iota.
    rewrite Hsc. cbv beta iota.
    rewrite Hd. cbv beta iota. rewrite Hds. cbv beta iota. rewrite Hdc. cbv beta iota.
    rewrite Hsd. cbv beta iota.
    assert (T : (5 =? 5) && (5 =? 5) = true) by reflexivity. rewrite T.
    unfold tr, truthy. destruct (bool_decide (dl = [])); cbn [negb];
      rewrite apply_changes_arr; destruct (apply_all E root _ st); rewrite <- app_assoc; reflexivity.
  - split; [|split]; vm_compute; reflexivity.
Qed.

(** C3, an instance: the convergence run. *)
Lemma double_five_commit_witness :
  lo_exit (loop Concrete.env Concrete.ws Concrete.claude_conv Concrete.codex_conv TURN_LIMIT 0
             None None Concrete.fs0 [])
  = LCommit [(true, LMsg (MReplace (JStr (pys "notes.txt"))))].
Proof.
  unfold TURN_LIMIT.
  rewrite (proj1 (double_five_commit Concrete.env Concrete.ws Concrete.claude_conv
    Concrete.codex_conv 4 0 None None Concrete.fs0 []
    (JObj [(pys "score", JInt 5); (pys "summary", JStr (pys "ok"))])
    (JObj [(pys "score", JInt 5); (pys "changes", JArr [JObj (Concrete.replace_kvs "notes.txt" "hello")])])
    [] [JObj (Concrete.replace_kvs "notes.txt" "hello")]
    ltac:(vm_compute; reflexivity) ltac:(vm_compute; reflexivity)
    ltac:(vm_compute; reflexivity) ltac:(vm_compute; reflexivity)
    ltac:(vm_compute; reflexivity) ltac:(vm_compute; reflexivity)
    ltac:(vm_compute; reflexivity) ltac:(vm_compute; reflexivity))).
  vm_compute. reflexivity.
Defined.

(** C3, a double 5 that does not commit: both sides score 5 on turn 0,
    the Reviewer replacing [notes.txt] by [hello], but the Reviewer's
    summary is a lone surrogate: [print(d_summary)] raises
    [UnicodeEncodeError] before [apply_changes], so the run crashes after
    the two calls with nothing written. *)
Lemma double_five_print_crash :
  main Concrete.env Concrete.ws Concrete.claude_conv Concrete.codex_surrogate Concrete.question
    InEOF Concrete.fs0
  = Build_run (Crash UnicodeEncodeError_) Concrete.fs0 [CallProposer 0; CallReviewer 0].
Proof. vm_compute. reflexivity. Qed.

(** ** Failing collaborators *)




(** ** The response parser *)

(** C5 (as the code has it): [re.findall] with the greedy [\{.*\}] yields
    at most one candidate, the span from the first ['{'] to the last
    ['}'] after it; the parser returns a value exactly when that span
    strictly decodes, and the value is its decoding; the fallback on the
    stripped text decodes the same span again. *)
Theorem parse_first_json_block_spec (d : nat) (text : pystr) (v : json) :
  parse_first_json_block d text = Ok v <->
  exists pre body post, text = pre ++ [123] ++ body ++ [125] ++ post
    /\ ~ In 123 pre /\ ~ In 125 post /\ Json.loads d ([123] ++ body ++ [125]) = Ok v.
Proof.
  destruct (findall_go_cases (S (length text)) text ltac:(lia))
    as [[Hf Hno]|(pre & body & post & Hsp & Hf)];
  unfold parse_first_json_block, findall_brace; rewrite Hf; cbv beta iota.
  - split.
    + intros H. exfalso. apply Hno.
      destruct (startswith_brace (py_strip text) && endswith_brace (py_strip text)) eqn:B;
        [|discriminate].
      destruct (braces_shape _ B) as (body & Hb).
      destruct (py_strip_split text) as (w1 & w2 & Ht & F1 & F2).
      exists w1, body, w2. rewrite Ht, Hb. rewrite <- !app_assoc. reflexivity.
    + intros (pre & body & post & H & _). exfalso. apply Hno. exists pre, body, post. exact H.
  - split.
    + intros H. exists pre, body, post. destruct Hsp as (Hs & Hp & Hq).
      split; [exact Hs|split; [exact Hp|split; [exact Hq|]]].
      destruct (Json.loads d ([123] ++ body ++ [125])) as [v'|e] eqn:L; [congruence|].
      exfalso.
      destruct (startswith_brace (py_strip text) && endswith_brace (py_strip text)) eqn:B;
        [|discriminate].
      destruct (braces_shape _ B) as (body' & Hb).
      destruct (py_strip_split text) as (w1 & w2 & Ht & F1 & F2).
      assert (Hsp' : brace_split text w1 body' w2).
      { split; [rewrite Ht, Hb; rewrite <- !app_assoc; reflexivity|].
        split; apply not_in_spaces; auto. }
      rewrite (brace_split_unique _ _ _ _ _ _ _ (conj Hs (conj Hp Hq)) Hsp') in L.
      rewrite <- Hb in L. rewrite L in H. discriminate.
    + intros (pre' & body' & post' & Hs' & Hp' & Hq' & L).
      rewrite <- (brace_split_unique _ _ _ _ _ _ _ (conj Hs' (conj Hp' Hq')) Hsp) in *.
      rewrite L. reflexivity.
Qed.

(** C5, a text whose first object decodes but is not returned: the only
    candidate runs to the last ['}'], and the fallback fails on it too. *)
Lemma parse_skips_valid_first_object :
  parse_first_json_block (env_loads_depth Concrete.env) (Concrete.pyq "{'a':1} {'b':2}")
  = Exc JSONDecodeError
  /\ Json.loads (env_loads_depth Concrete.env) (Concrete.pyq "{'a':1}")
     = Ok (JObj [(pys "a", JInt 1)]).
Proof. split; vm_compute; reflexivity. Qed.

(** ** Regex [patch_block] *)

(** C6: in regex mode [content] is a [re.sub] template, not exact text:
    on [/ws/a.txt] holding [x], replacing [x] by the four characters
    [a\nb] writes [a], a newline and [b]; the content [\1] (a group the
    pattern lacks) is refused as an invalid regex and nothing is
    written. *)
Lemma regex_content_is_a_template :
  (exists st, apply_change Concrete.env Concrete.ws (Concrete.regex_op "a\nb") Concrete.fs_a
              = (st, Ok (true, MRegexOk 1 (JStr (pys "a.txt"))))
     /\ Concrete.file_at st "a.txt" = Some (FText [97; 10; 98])
     /\ pys "a\nb" = [97; 92; 110; 98])
  /\ (exists st, apply_change Concrete.env Concrete.ws (Concrete.regex_op "\1") Concrete.fs_a
              = (st, Ok (false, MRegexInvalid (JStr (pys "x"))))
     /\ Concrete.file_at st "a.txt" = Some (FText (pys "x"))).
Proof.
  split; eexists; vm_compute; (split; [reflexivity|]);
    repeat split; reflexivity.
Qed.

(** C7: a [patch_block] with a falsy [regex] and a non-empty literal [find]
    on a target inside the root (a missing file read as empty text): when
    [find] occurs, the file becomes the text with its leftmost occurrence
    replaced by [content], later occurrences untouched, and no other file
    changes; when it does not occur, the result is the block-not-found
    failure and no file changes. *)
Theorem patch_block_literal_first (E : py_env) (root : path) (kvs : list (pystr * json))
  (s : pystr) (p : path) (f c : pystr) (st : fs) :
  assoc_get kvs (pys "action") = Some (JStr (pys "patch_block")) ->
  assoc_get kvs (pys "path") = Some (JStr s) -> s <> [] ->
  env_resolve E root s = Some p ->
  (p = root \/ exists r, r <> [] /\ p = root ++ r) ->
  p <> [] -> p ∉ fs_dirs st ->
  existsb (is_file st) (parents (parent p) ++ [parent p]) = false ->
  assoc_get kvs (pys "find") = Some (JStr f) -> f <> [] ->
  tr E (match assoc_get kvs (pys "regex") with Some v => v | None => JBool false end) = false ->
  match assoc_get kvs (pys "content") with Some v => v | None => JStr [] end = JStr c ->
  fs_files st !! p <> Some FUndecodable ->
  forall text : pystr,
  text = match fs_files st !! p with Some (FText raw) => translate_newlines raw | _ => [] end ->
  existsb is_surrogate text = false -> existsb is_surrogate c = false ->
  (forall pre post, text = pre ++ f ++ post ->
     (forall pre' post', text = pre' ++ f ++ post' -> (length pre <= length pre')%nat) ->
     exists st', apply_change E root (JObj kvs) st = (st', Ok (true, MPatchOk (JStr s)))
       /\ fs_files st' !! p = Some (FText (pre ++ c ++ post))
       /\ forall q, q <> p -> fs_files st' !! q = fs_files st !! q)
  /\ (~ (exists pre post, text = pre ++ f ++ post) ->
     exists st', apply_change E root (JObj kvs) st = (st', Ok (false, MBlockNotFound (JStr s)))
       /\ fs_files st' = fs_files st).
Proof.
  intros Ha Hp Hs Hres Hin Hne Hnd Hmk Hf Hfne Hrx Hc Hbin text Htext Hsur Hcsur.
  assert (Hs' : tr E (JStr s) = true).
  { unfold tr, truthy. rewrite (bool_decide_eq_false_2 _ Hs). reflexivity. }
  assert (Hf' : tr E (JStr f) = true).
  { unfold tr, truthy. rewrite (bool_decide_eq_false_2 _ Hfne). reflexivity. }
  assert (Htrue : tr E (JStr (pys "patch_block")) = true) by reflexivity.
  assert (Hg : (negb (existsb (path_eqb root) (parents p)) && negb (path_eqb p root)) = false).
  { apply guard_spec. exact Hin. }
  set (chain := parents (parent p) ++ [parent p]) in *.
  set (st1 := fold_left add_dir chain st).
  destruct (fold_add_dir_parents chain st) as [Hfiles1 Hdirs1]. fold st1 in Hfiles1, Hdirs1.
  assert (Hpd : is_dir st1 p = false).
  { unfold is_dir. apply bool_decide_eq_false. intros Hp1.
    apply fold_add_dir_dirs in Hp1 as [Hp1|Hp1]; [exact (chain_not_self p Hne Hp1)|exact (Hnd Hp1)]. }
  assert (Hpar : is_dir st1 (parent p) = true).
  { unfold is_dir. apply bool_decide_eq_true. apply Hdirs1. apply in_or_app. right. left. reflexivity. }
  (* reading the target *)
  assert (Hread : read_or_empty p st1 = (st1, Ok text)).
  { unfold read_or_empty, pbind, path_exists. rewrite Hpd, orb_false_r. unfold is_file.
    rewrite Hfiles1. subst text.
    destruct (fs_files st !! p) as [[raw|]|] eqn:Hfp.
    - rewrite bool_decide_eq_true_2 by (eexists; reflexivity).
      unfold read_text. rewrite Hpd, Hfiles1, Hfp. reflexivity.
    - congruence.
    - rewrite bool_decide_eq_false_2 by (intros [? ?]; discriminate). reflexivity. }
  unfold apply_change, pbind, plift, pret, praise, py_get.
  rewrite Ha, Hp, Htrue, Hs'. cbn [negb orb].
  unfold safe_relpath, pret, praise. rewrite Hres, Hg. cbv beta iota.
  unfold mkdir_parents. fold chain. rewrite Hmk. cbv beta iota.
  assert (R1 : json_is_str (JStr (pys "patch_block")) (pys "replace") = false) by reflexivity.
  assert (R2 : json_is_str (JStr (pys "patch_block")) (pys "append") = false) by reflexivity.
  assert (R3 : json_is_str (JStr (pys "patch_block")) (pys "patch_block") = true) by reflexivity.
  rewrite R1, R2, R3. cbv beta iota. rewrite Hf, Hf'. cbv beta iota. fold st1.
  cbn [negb]. cbv beta iota. rewrite Hread. cbv beta iota. rewrite Hrx, Hc. cbv beta iota.
  unfold str_contains, str_replace1.
  split.
  - intros pre post Ht Hleft.
    destruct (str_find f text) as [i|] eqn:Hfind.
    2:{ exfalso. apply (str_find_none f text Hfind (length pre)).
        rewrite Ht, drop_app_length. exists post. reflexivity. }
    rewrite bool_decide_eq_true_2 by (eexists; reflexivity). cbn [negb]. cbv beta iota.
    rewrite (replace1_leftmost f c text pre post Ht Hleft).
    unfold write_text. rewrite Hpd, Hpar. cbn [negb].
    assert (Hns : existsb is_surrogate (pre ++ c ++ post) = false).
    { rewrite Ht in Hsur. rewrite !existsb_app in Hsur |- *.
      rewrite Hcsur. apply orb_false_iff in Hsur as [-> Hsur].
      apply orb_false_iff in Hsur as [_ ->]. reflexivity. }
    rewrite Hns. eexists. split; [reflexivity|]. cbn [set_file fs_files]. split.
    + apply lookup_insert_eq.
    + intros q Hq. rewrite lookup_insert_ne by congruence. exact (f_equal (fun m => m !! q) Hfiles1).
  - intros Hn. rewrite (replace1_absent f text Hn).
    rewrite bool_decide_eq_false_2 by (intros [? ?]; discriminate). cbn [negb]. cbv beta iota.
    eexists. split; [reflexivity|]. exact Hfiles1.
Qed.

(** C7, an instance: [/ws/a.txt] holding [x x], [find] [x], [content] [z]. *)
Lemma patch_block_literal_first_witness :
  exists st', apply_change Concrete.env Concrete.ws (JObj (Concrete.patch_kvs "x" "z")) Concrete.fs_xx
              = (st', Ok (true, MPatchOk (JStr (pys "a.txt"))))
    /\ Concrete.file_at st' "a.txt" = Some (FText (pys "z x")).
Proof.
  destruct (proj1 (patch_block_literal_first Concrete.env Concrete.ws (Concrete.patch_kvs "x" "z")
    (pys "a.txt") (Concrete.ws ++ [pys "a.txt"]) (pys "x") (pys "z") Concrete.fs_xx
    ltac:(reflexivity) ltac:(reflexivity) ltac:(vm_compute; discriminate)
    ltac:(vm_compute; reflexivity)
    ltac:(right; exists [pys "a.txt"]; split; [discriminate|reflexivity])
    ltac:(vm_compute; discriminate)
    ltac:(vm_compute; discriminate)
    ltac:(vm_compute; reflexivity) ltac:(reflexivity) ltac:(vm_compute; discriminate)
    ltac:(vm_compute; reflexivity) ltac:(reflexivity) ltac:(vm_compute; discriminate)
    (pys "x x") ltac:(vm_compute; reflexivity) ltac:(vm_compute; reflexivity)
    ltac:(vm_compute; reflexivity)) [] (pys " x") ltac:(reflexivity) ltac:(intros; simpl; lia))
    as (st' & H1 & H2 & _).
  exists st'. split; [exact H1|]. unfold Concrete.file_at. etransitivity; [exact H2|]. reflexivity.
Defined.

(** C7, line endings: the file is read in text mode, so [a\r\nb] is seen
    as [a\nb]; a [find] of [\r\n] is then not found and the file is left
    as it was, and a successful patch of [a\r\nb\r\n] writes the text back
    with its [\r\n] turned into [\n]. *)
Lemma patch_block_crlf :
  (exists st', apply_change Concrete.env Concrete.ws (JObj (Concrete.patch_cps [13; 10] (pys "X")))
                 (Concrete.fs_raw [97; 13; 10; 98])
               = (st', Ok (false, MBlockNotFound (JStr (pys "a.txt"))))
     /\ Concrete.file_at st' "a.txt" = Some (FText [97; 13; 10; 98]))
  /\ (exists st', apply_change Concrete.env Concrete.ws (JObj (Concrete.patch_cps (pys "a") (pys "z")))
                 (Concrete.fs_raw [97; 13; 10; 98; 13; 10])
               = (st', Ok (true, MPatchOk (JStr (pys "a.txt"))))
     /\ Concrete.file_at st' "a.txt" = Some (FText [122; 10; 98; 10])).
Proof. split; eexists; vm_compute; split; reflexivity. Qed.

(** ** Exhaustion *)

(** C8: when the loop reaches the turn bound (every turn parsed, printed
    and scored without a double 5), it has made exactly [TURN_LIMIT]
    (Proposer, Reviewer) pairs of calls and written nothing; its locals
    hold the changes of the last Proposer and Reviewer replies.  The run
    then goes to the manual gate: the candidate is the last Reviewer
    [changes] when truthy, else the last Proposer [changes]; with no
    candidate nothing is offered; otherwise it is previewed (a preview
    that cannot be printed crashes the run) and applied only when the
    user answers [o]: without that answer the filesystem is the one the
    run started from. *)
Theorem exhausted_gate (E : py_env) (root : path) (cr dr : nat -> reply)
  (q : pystr) (answer : input_result) (st : fs) :
  lo_exit (loop E root cr dr TURN_LIMIT O None None st []) = LBound ->
  let lo := loop E root cr dr TURN_LIMIT O None None st [] in
  lo_calls lo = sched TURN_LIMIT /\ lo_fs lo = st
  /\ exists c d, reply_changes E (cr 4%nat) = Some c /\ reply_changes E (dr 4%nat) = Some d
     /\ lo_c_changes lo = Some c /\ lo_d_changes lo = Some d
     /\ (path_prints E root = true -> is_file st root || is_dir st root = true -> q <> [] ->
         let r := main E root cr dr (InLine q) answer st in
         let cand := if tr E d then d else c in
         r_calls r = sched TURN_LIMIT
         /\ (is_yes answer = false -> r_fs r = st)
         /\ (tr E cand = false -> r_end r = AfterLoop None GNoCandidate)
         /\ (forall x, tr E cand = true -> preview E cand = Exc x -> r_end r = Crash x)
         /\ (tr E cand = true -> preview E cand = Ok tt -> answer = InUndecodable ->
             r_end r = Crash UnicodeDecodeError_)
         /\ (tr E cand = true -> preview E cand = Ok tt -> answer <> InUndecodable ->
             is_yes answer = false -> r_end r = AfterLoop None (GDeclined cand))
         /\ (tr E cand = true -> preview E cand = Ok tt -> is_yes answer = true ->
             r_fs r = (apply_changes E root cand st).1
             /\ (forall logs, (apply_changes E root cand st).2 = Ok logs ->
                 print_logs E logs = Ok tt -> r_end r = AfterLoop None (GApplied cand logs)))).
Proof.
  intros Hb lo.
  destruct (loop_bound_shape E root cr dr TURN_LIMIT O st [] Hb)
    as (Hfs & Hcalls & Hc & Hd & Hsome).
  change (prev_changes E cr 0) with (@None json) in Hfs, Hcalls, Hc, Hd.
  change (prev_changes E dr 0) with (@None json) in Hfs, Hcalls, Hc, Hd.
  change (prev_changes E cr (0 + TURN_LIMIT)) with (reply_changes E (cr 4%nat)) in Hc, Hsome.
  change (prev_changes E dr (0 + TURN_LIMIT)) with (reply_changes E (dr 4%nat)) in Hd, Hsome.
  destruct Hsome as [Hk|[[c Hc'] [d Hd']]]; [discriminate|].
  subst lo. split; [exact Hcalls|]. split; [exact Hfs|].
  exists c, d. split; [exact Hc'|]. split; [exact Hd'|].
  rewrite Hc, Hd, Hc', Hd'. split; [reflexivity|]. split; [reflexivity|].
  intros Hp Hr Hq.
  pose proof (gate_cases E root cr dr q answer st None Hp Hr Hq (or_introl (conj Hb eq_refl))) as G.
  cbv zeta in G |- *. rewrite Hfs, Hcalls in G. rewrite Hc, Hc' in G. rewrite Hd, Hd' in G.
  destruct G as (G1 & G2 & _ & G4).
  destruct (G4 c d eq_refl eq_refl) as (H1 & H2 & H3 & H4 & H5).
  split; [exact G1|]. split; [exact G2|].
  split; [exact H1|]. split; [exact H2|]. split; [exact H3|]. split; [exact H4|]. exact H5.
Qed.

(** C8, an instance: both sides score 3 at every turn. *)
Lemma exhausted_gate_witness :
  let r := main Concrete.env Concrete.ws Concrete.score3 Concrete.score3 Concrete.question InEOF
             Concrete.fs0 in
  r_calls r = sched TURN_LIMIT
  /\ r_end r = AfterLoop None GNoCandidate /\ r_fs r = Concrete.fs0.
Proof.
  destruct (exhausted_gate Concrete.env Concrete.ws Concrete.score3 Concrete.score3
    (pys "why does the login fail") InEOF Concrete.fs0 ltac:(vm_compute; reflexivity))
    as (_ & _ & c & d & Hc & Hd & _ & _ & H).
  vm_compute in Hc. vm_compute in Hd. injection Hc as <-. injection Hd as <-.
  destruct (H ltac:(vm_compute; reflexivity) ltac:(vm_compute; reflexivity)
              ltac:(vm_compute; discriminate)) as (H1 & H2 & H3 & _).
  split; [exact H1|]. split; [exact (H3 ltac:(vm_compute; reflexivity))|].
  exact (H2 ltac:(vm_compute; reflexivity)).
Defined.

(** ** Scores *)

(** C9 (as the code has it): a score goes through [int()] with no range
    check: any integer score is accepted and the loop goes on unless both
    are 5; a score [int()] rejects ([null], a list, an object), from the
    Proposer or from the Reviewer, raises an exception nothing catches, so
    the loop, and the run, crash with nothing written. *)
Theorem score_int_coercion (E : py_env) (root : path) (cr dr : nat -> reply) :
  (forall k turn cc dc st calls cj dj c d cch dch,
    ask E (cr turn) = Ok cj -> ask E (dr turn) = Ok dj ->
    py_get cj (pys "score") (JInt 1) = Ok (JInt c) ->
    py_get dj (pys "score") (JInt 1) = Ok (JInt d) ->
    py_get cj (pys "changes") (JArr []) = Ok cch ->
    py_get dj (pys "changes") (JArr []) = Ok dch ->
    show_reply E cj cch = Ok tt -> show_reply E dj dch = Ok tt ->
    (c =? 5) && (d =? 5) = false ->
    loop E root cr dr (S k) turn cc dc st calls =
    loop E root cr dr k (S turn) (Some cch) (Some dch) st
      (calls ++ [CallProposer turn; CallReviewer turn]))
  /\ (forall k turn cc dc st calls cj x,
    ask E (cr turn) = Ok cj -> rbind (py_get cj (pys "score") (JInt 1)) (py_int E) = Exc x ->
    loop E root cr dr (S k) turn cc dc st calls =
    Build_loop_out (LCrash x) cc dc st (calls ++ [CallProposer turn]))
  /\ (forall k turn cc dc st calls cj dj c cch x,
    ask E (cr turn) = Ok cj -> rbind (py_get cj (pys "score") (JInt 1)) (py_int E) = Ok c ->
    py_get cj (pys "changes") (JArr []) = Ok cch -> show_reply E cj cch = Ok tt ->
    ask E (dr turn) = Ok dj -> rbind (py_get dj (pys "score") (JInt 1)) (py_int E) = Exc x ->
    loop E root cr dr (S k) turn cc dc st calls =
    Build_loop_out (LCrash x) (Some cch) dc st (calls ++ [CallProposer turn; CallReviewer turn]))
  /\ (forall q answer st cj x,
    path_prints E root = true -> is_file st root || is_dir st root = true -> q <> [] ->
    ask E (cr 0%nat) = Ok cj -> rbind (py_get cj (pys "score") (JInt 1)) (py_int E) = Exc x ->
    main E root cr dr (InLine q) answer st = Build_run (Crash x) st [CallProposer 0])
  /\ (forall q answer st cj dj c cch x,
    path_prints E root = true -> is_file st root || is_dir st root = true -> q <> [] ->
    ask E (cr 0%nat) = Ok cj -> rbind (py_get cj (pys "score") (JInt 1)) (py_int E) = Ok c ->
    py_get cj (pys "changes") (JArr []) = Ok cch -> show_reply E cj cch = Ok tt ->
    ask E (dr 0%nat) = Ok dj -> rbind (py_get dj (pys "score") (JInt 1)) (py_int E) = Exc x ->
    main E root cr dr (InLine q) answer st
    = Build_run (Crash x) st [CallProposer 0; CallReviewer 0])
  /\ (forall v, (v = JNull \/ (exists l, v = JArr l) \/ (exists kvs, v = JObj kvs)) ->
      py_int E v = Exc IntError).
Proof.
  assert (Hc1 : forall k turn cc dc st calls cj x,
    ask E (cr turn) = Ok cj -> rbind (py_get cj (pys "score") (JInt 1)) (py_int E) = Exc x ->
    loop E root cr dr (S k) turn cc dc st calls =
    Build_loop_out (LCrash x) cc dc st (calls ++ [CallProposer turn])).
  { intros k turn cc dc st calls cj x Hc Hs. cbn [loop]. rewrite Hc. cbv beta iota.
    rewrite Hs. reflexivity. }
  assert (Hc2 : forall k turn cc dc st calls cj dj c cch x,
    ask E (cr turn) = Ok cj -> rbind (py_get cj (pys "score") (JInt 1)) (py_int E) = Ok c ->
    py_get cj (pys "changes") (JArr []) = Ok cch -> show_reply E cj cch = Ok tt ->
    ask E (dr turn) = Ok dj -> rbind (py_get dj (pys "score") (JInt 1)) (py_int E) = Exc x ->
    loop E root cr dr (S k) turn cc dc st calls =
    Build_loop_out (LCrash x) (Some cch) dc st (calls ++ [CallProposer turn; CallReviewer turn])).
  { intros k turn cc dc st calls cj dj c cch x Hc Hcs Hcc Hsc Hd Hds. cbn [loop].
    rewrite Hc. cbv beta iota. rewrite Hcs. cbv beta iota. rewrite Hcc. cbv beta iota.
    rewrite Hsc. cbv beta iota. rewrite Hd. cbv beta iota. rewrite Hds.
    rewrite <- app_assoc. reflexivity. }
  split; [|split; [exact Hc1|split; [exact Hc2|split; [|split]]]].
  - intros k turn cc dc st calls cj dj c d cch dch Hc Hd Hcs Hds Hcc Hdc Hsc Hsd H5.
    apply (loop_step_continue E root cr dr k turn cc dc st calls cj dj c d cch dch Hc Hd);
      [rewrite Hcs; reflexivity|rewrite Hds; reflexivity|exact Hcc|exact Hdc|exact Hsc|exact Hsd|exact H5].
  - intros q answer st cj x Hp Hroot Hq Hc Hs. unfold main. rewrite Hp, Hroot. cbn [negb].
    rewrite (bool_decide_eq_false_2 _ Hq). unfold TURN_LIMIT.
    rewrite (Hc1 4%nat 0%nat None None st [] cj x Hc Hs). reflexivity.
  - intros q answer st cj dj c cch x Hp Hroot Hq Hc Hcs Hcc Hsc Hd Hds. unfold main.
    rewrite Hp, Hroot. cbn [negb]. rewrite (bool_decide_eq_false_2 _ Hq). unfold TURN_LIMIT.
    rewrite (Hc2 4%nat 0%nat None None st [] cj dj c cch x Hc Hcs Hcc Hsc Hd Hds). reflexivity.
  - intros v [->|[[l ->]|[kvs ->]]]; reflexivity.
Qed.

(** C9, scores out of range: a Proposer scoring 7 and a Reviewer scoring
    0 at every turn are accepted without any defect; the run just reaches
    the bound. *)
Lemma out_of_range_scores_accepted :
  let r := main Concrete.env Concrete.ws Concrete.score7 Concrete.score0 Concrete.question InEOF
             Concrete.fs0 in
  r_end r = AfterLoop None GNoCandidate /\ length (r_calls r) = 10%nat.
Proof. vm_compute. split; reflexivity. Qed.

(** C9, an instance: a [null] score on turn 0. *)
Lemma score_int_coercion_witness :
  main Concrete.env Concrete.ws Concrete.score_null Concrete.score0 Concrete.question InEOF
    Concrete.fs0
  = Build_run (Crash IntError) Concrete.fs0 [CallProposer 0].
Proof.
  exact (proj1 (proj2 (proj2 (proj2 (score_int_coercion Concrete.env Concrete.ws
    Concrete.score_null Concrete.score0)))) (pys "why does the login fail") InEOF Concrete.fs0
    (JObj [(pys "score", JNull)]) IntError
    ltac:(vm_compute; reflexivity) ltac:(vm_compute; reflexivity) ltac:(vm_compute; discriminate)
    ltac:(vm_compute; reflexivity) ltac:(vm_compute; reflexivity)).
Defined.

(** C10: once the path passes the guard, [apply_change] runs
    [target.parent.mkdir(parents=True, exist_ok=True)] before looking at
    the action: an unknown action, or a [patch_block] whose [find] is
    falsy, returns a failure yet every directory from the root of the
    filesystem down to the target's parent exists afterwards (no file is
    written). *)
Theorem mkdir_before_validation (E : py_env) (root : path) (kvs : list (pystr * json))
  (a : json) (s : pystr) (p : path) (st : fs) :
  assoc_get kvs (pys "action") = Some a -> tr E a = true ->
  assoc_get kvs (pys "path") = Some (JStr s) -> s <> [] ->
  env_resolve E root s = Some p ->
  (p = root \/ exists r, r <> [] /\ p = root ++ r) ->
  existsb (is_file st) (parents (parent p) ++ [parent p]) = false ->
  (json_is_str a (pys "replace") = false /\ json_is_str a (pys "append") = false
   /\ json_is_str a (pys "patch_block") = false)
  \/ (json_is_str a (pys "patch_block") = true
      /\ tr E (match assoc_get kvs (pys "find") with Some f => f | None => JNull end) = false) ->
  exists st' m, apply_change E root (JObj kvs) st = (st', Ok (false, m)) /\
    fs_files st' = fs_files st /\
    (forall q, In q (parents (parent p) ++ [parent p]) -> q ∈ fs_dirs st').
Proof.
  intros Ha Htr Hp Hs Hres Hin Hmk Hact.
  assert (Hs' : tr E (JStr s) = true).
  { unfold tr, truthy. rewrite (bool_decide_eq_false_2 _ Hs). reflexivity. }
  assert (Hg : (negb (existsb (path_eqb root) (parents p)) && negb (path_eqb p root)) = false).
  { apply guard_spec. exact Hin. }
  unfold apply_change, pbind, plift, pret, praise, py_get. rewrite Ha, Hp, Htr, Hs'. cbn [negb orb].
  unfold safe_relpath, pret, praise. rewrite Hres, Hg. cbn iota beta.
  unfold mkdir_parents. rewrite Hmk. cbn iota beta.
  destruct Hact as [(H1 & H2 & H3)|(H3 & Hf)].
  - rewrite H1, H2, H3. eexists _, _. split; [reflexivity|]. apply fold_add_dir_parents.
  - assert (Ea : a = JStr (pys "patch_block")).
    { destruct a; try discriminate. unfold json_is_str, pystr_eqb in H3.
      apply bool_decide_eq_true in H3. subst. reflexivity. }
    subst a.
    assert (R1 : json_is_str (JStr (pys "patch_block")) (pys "replace") = false) by reflexivity.
    assert (R2 : json_is_str (JStr (pys "patch_block")) (pys "append") = false) by reflexivity.
    rewrite R1, R2, H3. cbv beta iota. rewrite Hf. cbv beta iota.
    eexists _, _. split; [reflexivity|]. apply fold_add_dir_parents.
Qed.

(** C10, an instance: an unknown action on [sub/x.txt] creates [/ws/sub]. *)
Lemma mkdir_before_validation_witness :
  exists st' m,
    apply_change Concrete.env Concrete.ws (JObj (Concrete.bare_kvs "frobnicate" "sub/x.txt"))
      Concrete.fs0 = (st', Ok (false, m))
    /\ Concrete.ws ++ [pys "sub"] ∈ fs_dirs st'.
Proof.
  destruct (mkdir_before_validation Concrete.env Concrete.ws
    (Concrete.bare_kvs "frobnicate" "sub/x.txt") (JStr (pys "frobnicate")) (pys "sub/x.txt")
    (Concrete.ws ++ [pys "sub"; pys "x.txt"]) Concrete.fs0
    ltac:(reflexivity) ltac:(reflexivity) ltac:(reflexivity) ltac:(vm_compute; discriminate)
    ltac:(vm_compute; reflexivity)
    ltac:(right; exists [pys "sub"; pys "x.txt"]; split; [discriminate|reflexivity])
    ltac:(vm_compute; reflexivity)
    ltac:(left; split; [reflexivity|split; reflexivity]))
    as (st' & m & H1 & _ & H3).
  exists st', m. split; [exact H1|]. apply H3.
  apply in_or_app. right. left. vm_compute. reflexivity.
Defined.

(* ------------------------------------------------------------------ *)
(** * Further properties of the code *)

Lemma frames_ret P {A} (a : A) : frames P (pret a).
Proof. intros st q _. reflexivity. Qed.
Lemma frames_raise P {A} e : frames P (praise (A:=A) e).
Proof. intros st q _. reflexivity. Qed.
Lemma frames_lift P {A} (r : py_result A) : frames P (plift r).
Proof. intros st q _. reflexivity. Qed.

Lemma frames_bind_ok P {A B} (Q : A -> Prop) (m : PyM A) (k : A -> PyM B) :
  (forall st st' a, m st = (st', Ok a) -> Q a) ->
  frames P m -> (forall a, Q a -> frames P (k a)) -> frames P (pbind m k).
Proof.
  intros HQ Hm Hk st q Hq. unfold pbind. specialize (Hm st q Hq).
  destruct (m st) as [st1 [a|e]] eqn:Heq; cbn in *; [|exact Hm].
  rewrite (Hk a (HQ _ _ _ Heq) st1 q Hq). exact Hm.
Qed.

Lemma frames_bind P {A B} (m : PyM A) (k : A -> PyM B) :
  frames P m -> (forall a, frames P (k a)) -> frames P (pbind m k).
Proof.
  intros Hm Hk. apply (frames_bind_ok P (fun _ => True)); auto.
Qed.

Lemma frames_mkdir P q : frames P (mkdir_parents q).
Proof.
  intros st r _. unfold mkdir_parents.
  destruct (existsb _ _); [reflexivity|]. cbn. rewrite fold_add_dir_files. reflexivity.
Qed.

Lemma frames_write (P : path -> Prop) p d : P p -> frames P (write_text p d).
Proof.
  intros Hp st q Hq. unfold write_text.
  assert (Hne : p <> q) by (intros ->; contradiction).
  destruct d; try reflexivity.
  destruct (is_dir st p); [reflexivity|]. destruct (negb _); [reflexivity|].
  destruct (existsb _ _); cbn; apply lookup_insert_ne; exact Hne.
Qed.

Lemma frames_read_or_empty P p : frames P (read_or_empty p).
Proof.
  intros st q _. unfold read_or_empty, pbind, path_exists. cbn.
  destruct (_ || _); [|reflexivity]. unfold read_text.
  destruct (is_dir st p); [reflexivity|]. destruct (fs_files st !! p) as [[]|]; reflexivity.
Qed.

Lemma safe_relpath_inside E root v st st' p :
  safe_relpath E root v st = (st', Ok p) -> p = root \/ exists r, r <> [] /\ p = root ++ r.
Proof.
  unfold safe_relpath, praise, pret. destruct v; try discriminate.
  destruct (env_resolve E root s) as [p'|]; [|discriminate].
  destruct (_ && _) eqn:Hg; [discriminate|]. intros H. injection H as _ <-.
  apply guard_spec. exact Hg.
Qed.


Lemma safe_relpath_state E root v st : (safe_relpath E root v st).1 = st.
Proof.
  unfold safe_relpath, praise, pret. destruct v; try reflexivity.
  destruct (env_resolve E root s); [|reflexivity]. destruct (_ && _); reflexivity.
Qed.

Lemma apply_change_frames E root ch :
  frames (fun q => q = root \/ exists r, r <> [] /\ q = root ++ r) (apply_change E root ch).
Proof.
  unfold apply_change.
  apply frames_bind; [apply frames_lift|intros action].
  apply frames_bind; [apply frames_lift|intros path_v].
  apply frames_bind; [apply frames_lift|intros content].
  destruct (_ || _); [apply frames_ret|].
  apply (frames_bind_ok _ (fun p => p = root \/ exists r, r <> [] /\ p = root ++ r)).
  { apply safe_relpath_inside. }
  { intros st q _. rewrite safe_relpath_state. reflexivity. }
  intros target Ht.
  apply frames_bind; [apply frames_mkdir|intros _].
  repeat first
    [ apply frames_ret | apply frames_raise | apply frames_lift
    | apply frames_write; exact Ht
    | apply frames_read_or_empty
    | apply frames_bind; [|intros ?]
    | match goal with
      | |- frames _ (if ?b then _ else _) => destruct b
      | |- frames _ (match ?x with _ => _ end) => destruct x
      end ].
Qed.

Lemma apply_all_frames E root l st q :
  ~ (q = root \/ exists r, r <> [] /\ q = root ++ r) ->
  fs_files (apply_all E root l st).1 !! q = fs_files st !! q.
Proof.
  intros Hq. revert st. induction l as [|ch l IH]; intros st; [reflexivity|]. cbn [apply_all].
  pose proof (apply_change_frames E root ch st q Hq) as H1.
  destruct (apply_change E root ch st) as [st1 res]. cbn in H1.
  specialize (IH st1). destruct (apply_all E root l st1) as [st2 rest]. cbn [fst] in *. rewrite IH. exact H1.
Qed.

Lemma apply_changes_frames E root ch :
  frames (fun q => q = root \/ exists r, r <> [] /\ q = root ++ r) (apply_changes E root ch).
Proof.
  intros st q Hq. unfold apply_changes. destruct (iter_changes E ch) as [l|]; [|reflexivity].
  pose proof (apply_all_frames E root l st q Hq) as H.
  destruct (apply_all E root l st). exact H.
Qed.

Lemma loop_frames E root cr dr q k turn cc dc st calls :
  ~ (q = root \/ exists r, r <> [] /\ q = root ++ r) ->
  fs_files (lo_fs (loop E root cr dr k turn cc dc st calls)) !! q = fs_files st !! q.
Proof.
  intros Hq. revert turn cc dc calls. induction k as [|k IH]; intros turn cc dc calls; [reflexivity|].
  cbn [loop].
  repeat match goal with
         | |- context [match ?x with Ok _ => _ | Exc _ => _ end] =>
             lazymatch x with apply_changes _ _ _ _ => fail | _ => destruct x end
         end; try reflexivity.
  destruct (_ && _); [|apply IH].
  match goal with |- context [apply_changes E root ?c st] => pose proof (apply_changes_frames E root c st q Hq) as H end.
  destruct (apply_changes E root _ st) as [st' [|]]; exact H.
Qed.

(** X1: a file outside the workspace root is never changed: neither a batch of changes nor a whole run of [main] changes the file at a path that is neither the root nor below it. *)
Theorem run_frames E root cr dr (question answer : input_result) (changes : json) (st : fs) (q : path) :
  ~ (q = root \/ exists r, r <> [] /\ q = root ++ r) ->
  fs_files (apply_changes E root changes st).1 !! q = fs_files st !! q /\
  fs_files (r_fs (main E root cr dr question answer st)) !! q = fs_files st !! q.
Proof.
  intros Hq. split; [exact (apply_changes_frames E root changes st q Hq)|].
  pose proof (loop_frames E root cr dr q TURN_LIMIT O None None st [] Hq) as HL.
  unfold main.
  destruct (negb _); [reflexivity|]. destruct (negb _); [reflexivity|].
  destruct question as [qs| |]; [|reflexivity|reflexivity].
  destruct (bool_decide _); [reflexivity|].
  destruct (loop E root cr dr TURN_LIMIT O None None st []) as [ex cc dc st1 calls].
  cbn [lo_exit lo_fs lo_c_changes lo_d_changes lo_calls] in *.
  destruct ex; cbn [r_fs]; try exact HL;
  repeat match goal with
         | |- context [match ?x with Ok _ => _ | Exc _ => _ end] =>
             lazymatch x with apply_changes _ _ _ _ => fail | _ => destruct x end
         | |- context [if ?b then _ else _] =>
             lazymatch b with context [apply_changes] => fail | _ => destruct b end
         | |- context [match ?x with Some _ => _ | None => _ end] => destruct x
         | |- context [match ?x with InLine _ => _ | InEOF => _ | InUndecodable => _ end] => destruct x
         end; cbn [r_fs]; try exact HL;
  match goal with |- context [apply_changes E root ?c st1] =>
    pose proof (apply_changes_frames E root c st1 q Hq) as H;
    destruct (apply_changes E root c st1) as [st' [|]]; cbn [fst] in H;
    repeat match goal with |- context [match ?x with Ok _ => _ | Exc _ => _ end] => destruct x end;
    cbn [r_fs]; rewrite H; exact HL end.
Qed.

Lemma apply_changes_exc_state E root ch st st' e :
  apply_changes E root ch st = (st', Exc e) -> st' = st.
Proof.
  unfold apply_changes. destruct (iter_changes E ch) as [l|].
  - destruct (apply_all E root l st). discriminate.
  - intros H. injection H as <- _. reflexivity.
Qed.

Lemma loop_fs_commit E root cr dr k turn cc dc st calls :
  lo_fs (loop E root cr dr k turn cc dc st calls) = st \/
  exists logs, lo_exit (loop E root cr dr k turn cc dc st calls) = LCommit logs.
Proof.
  revert turn cc dc calls. induction k as [|k IH]; intros turn cc dc calls; [left; reflexivity|].
  cbn [loop].
  repeat match goal with
         | |- context [match ?x with Ok _ => _ | Exc _ => _ end] =>
             lazymatch x with apply_changes _ _ _ _ => fail | _ => destruct x end
         end; try (left; reflexivity).
  destruct (_ && _); [|apply IH].
  destruct (apply_changes E root _ st) as [st' [logs|e]] eqn:Hap.
  - right. exists logs. reflexivity.
  - left. exact (apply_changes_exc_state _ _ _ _ _ _ Hap).
Qed.

(** X2: without a yes at the manual gate, a run leaves the filesystem as it was unless its loop ended in a commit after a double 5. *)
Theorem no_write_without_agreement E root cr dr question answer st :
  is_yes answer = false ->
  r_fs (main E root cr dr question answer st) = st \/
  exists logs, lo_exit (loop E root cr dr TURN_LIMIT O None None st []) = LCommit logs.
Proof.
  intros Hno. unfold main.
  destruct (negb _); [left; reflexivity|]. destruct (negb _); [left; reflexivity|].
  destruct question as [qs| |]; [|left; reflexivity|left; reflexivity].
  destruct (bool_decide _); [left; reflexivity|].
  destruct (loop_fs_commit E root cr dr TURN_LIMIT O None None st []) as [HL|[logs HL]].
  - destruct (loop E root cr dr TURN_LIMIT O None None st []) as [ex cc dc st1 calls].
    cbn [lo_exit lo_fs lo_c_changes lo_d_changes lo_calls] in *. subst st1.
    left. rewrite Hno.
    destruct ex; cbn [r_fs r_end];
    repeat match goal with
         | |- context [match ?x with Ok _ => _ | Exc _ => _ end] => destruct x
         | |- context [if ?b then _ else _] => destruct b
         | |- context [match ?x with Some _ => _ | None => _ end] => destruct x
         | |- context [match ?x with InLine _ => _ | InEOF => _ | InUndecodable => _ end] => destruct x
         end; cbn [r_fs r_end]; reflexivity.
  - right. exists logs. exact HL.
Qed.

Lemma loop_calls E root cr dr k turn cc dc st calls :
  exists pre, lo_calls (loop E root cr dr k turn cc dc st calls) = calls ++ pre /\
    pre `prefix_of` flat_map (fun t => [CallProposer t; CallReviewer t]) (seq turn k).
Proof.
  revert turn cc dc calls. induction k as [|k IH]; intros turn cc dc calls.
  { exists []. rewrite app_nil_r. split; [reflexivity|apply prefix_nil]. }
  cbn [loop seq flat_map].
  assert (H1 : exists pre, calls ++ [CallProposer turn] = calls ++ pre /\
            pre `prefix_of` [CallProposer turn; CallReviewer turn] ++
                 flat_map (fun t => [CallProposer t; CallReviewer t]) (seq (S turn) k)).
  { exists [CallProposer turn]. split; [reflexivity|]. exists (CallReviewer turn :: flat_map (fun t => [CallProposer t; CallReviewer t]) (seq (S turn) k)). reflexivity. }
  assert (H2 : exists pre, (calls ++ [CallProposer turn]) ++ [CallReviewer turn] = calls ++ pre /\
            pre `prefix_of` [CallProposer turn; CallReviewer turn] ++
                 flat_map (fun t => [CallProposer t; CallReviewer t]) (seq (S turn) k)).
  { exists [CallProposer turn; CallReviewer turn]. rewrite <- app_assoc. split; [reflexivity|].
    apply prefix_app_r. reflexivity. }
  repeat match goal with
         | |- context [match ?x with Ok _ => _ | Exc _ => _ end] =>
             lazymatch x with apply_changes _ _ _ _ => fail | _ => destruct x end
         end; cbn [lo_calls]; try exact H1; try exact H2.
  destruct (_ && _).
  - destruct (apply_changes E root _ st) as [st' [|]]; exact H2.
  - match goal with |- context [loop E root cr dr k (S turn) ?c ?d ?st' ?cl] =>
      destruct (IH (S turn) c d cl) as [pre [Hc Hp]] end.
    rewrite Hc. exists ([CallProposer turn; CallReviewer turn] ++ pre).
    split; [rewrite <- !app_assoc; reflexivity|]. apply prefix_app. exact Hp.
Qed.

(** X3: the backend calls of a run alternate Proposer then Reviewer, turn after turn from turn 0: they form a prefix of P0, R0, ..., P4, R4, so a run makes at most ten calls. *)
Theorem run_call_schedule E root cr dr (question answer : input_result) st :
  r_calls (main E root cr dr question answer st) `prefix_of`
  flat_map (fun t => [CallProposer t; CallReviewer t]) (seq 0 TURN_LIMIT).
Proof.
  destruct (loop_calls E root cr dr TURN_LIMIT O None None st []) as [pre [Hc Hp]].
  unfold main.
  destruct (negb _); [apply prefix_nil|]. destruct (negb _); [apply prefix_nil|].
  destruct question as [qs| |]; [|apply prefix_nil|apply prefix_nil].
  destruct (bool_decide _); [apply prefix_nil|].
  destruct (loop E root cr dr TURN_LIMIT O None None st []) as [ex cc dc st1 calls].
  cbn [lo_exit lo_fs lo_c_changes lo_d_changes lo_calls] in *. rewrite Hc. cbn [app].
  destruct ex; cbn [r_calls];
  repeat match goal with
       | |- context [match ?x with Ok _ => _ | Exc _ => _ end] => destruct x
       | |- context [if ?b then _ else _] => destruct b
       | |- context [match ?x with Some _ => _ | None => _ end] => destruct x
       | |- context [let '(_, _) := ?x in _] => destruct x
       | |- context [match ?x with InLine _ => _ | InEOF => _ | InUndecodable => _ end] => destruct x
       end; cbn [r_calls]; exact Hp.
Qed.

(** X4: [safe_relpath] never changes the filesystem; it returns [p] exactly when the path is a string resolving to [p] with [p] the root or below it; it raises when [resolve] raises and a [TypeError] on a non-string path. *)
Theorem safe_relpath_accepts_inside E root (v : json) (st : fs) :
  (safe_relpath E root v st).1 = st /\
  (forall p, (safe_relpath E root v st).2 = Ok p <->
     exists s, v = JStr s /\ env_resolve E root s = Some p /\
               (p = root \/ exists r, r <> [] /\ p = root ++ r)) /\
  (forall s, v = JStr s -> env_resolve E root s = None ->
     (safe_relpath E root v st).2 = Exc ResolveError) /\
  ((forall s, v <> JStr s) -> (safe_relpath E root v st).2 = Exc TypeError_).
Proof.
  split; [|split; [|split]].
  - unfold safe_relpath, praise, pret. destruct v; try reflexivity.
    destruct (env_resolve E root s); [|reflexivity]. destruct (_ && _); reflexivity.
  - intros p. unfold safe_relpath, praise, pret. split.
    + destruct v as [| | | |s| |]; try discriminate. cbn.
      destruct (env_resolve E root s) as [p'|] eqn:Hr; [|discriminate].
      destruct (_ && _) eqn:Hg; [discriminate|]. intros H. injection H as <-.
      exists s. split; [reflexivity|]. split; [exact Hr|]. apply guard_spec. exact Hg.
    + intros (s & -> & Hr & Hin). rewrite Hr.
      rewrite (proj2 (guard_spec root p) Hin). reflexivity.
  - intros s -> Hr. unfold safe_relpath, praise. rewrite Hr. reflexivity.
  - intros H. unfold safe_relpath, praise. destruct v; try reflexivity.
    exfalso. exact (H s eq_refl).
Qed.

Lemma chain_setup (st : fs) (p : path) :
  p <> [] -> p ∉ fs_dirs st ->
  fs_files (fold_left add_dir (parents (parent p) ++ [parent p]) st) = fs_files st /\
  is_dir (fold_left add_dir (parents (parent p) ++ [parent p]) st) p = false /\
  is_dir (fold_left add_dir (parents (parent p) ++ [parent p]) st) (parent p) = true.
Proof.
  intros Hne Hnd.
  destruct (fold_add_dir_parents (parents (parent p) ++ [parent p]) st) as [Hf Hd].
  split; [exact Hf|]. split.
  - unfold is_dir. apply bool_decide_eq_false. intros Hp1.
    apply fold_add_dir_dirs in Hp1 as [Hp1|Hp1]; [exact (chain_not_self p Hne Hp1)|exact (Hnd Hp1)].
  - unfold is_dir. apply bool_decide_eq_true. apply Hd. apply in_or_app. right. left. reflexivity.
Qed.

Lemma read_or_empty_text (st : fs) (p : path) :
  is_dir st p = false -> fs_files st !! p <> Some FUndecodable ->
  read_or_empty p st =
  (st, Ok (match fs_files st !! p with Some (FText raw) => translate_newlines raw | _ => [] end)).
Proof.
  intros Hpd Hbin. unfold read_or_empty, pbind, path_exists. rewrite Hpd, orb_false_r. unfold is_file.
  destruct (fs_files st !! p) as [[raw|]|] eqn:Hfp.
  - rewrite bool_decide_eq_true_2 by (eexists; reflexivity).
    unfold read_text. rewrite Hpd, Hfp. reflexivity.
  - congruence.
  - rewrite bool_decide_eq_false_2 by (intros [? ?]; discriminate). reflexivity.
Qed.

Ltac open_change :=
  match goal with
  | Ha : assoc_get ?kvs (pys "action") = Some ?a,
    Htr : tr ?E ?a = true,
    Hp : assoc_get ?kvs (pys "path") = Some (JStr ?s),
    Hs : ?s <> [],
    Hres : env_resolve ?E ?root ?s = Some ?p,
    Hin : (?p = ?root \/ _) |- _ =>
      let Hs' := fresh "Hs'" in let Hg := fresh "Hg" in
      assert (Hs' : tr E (JStr s) = true)
        by (unfold tr, truthy; rewrite (bool_decide_eq_false_2 _ Hs); reflexivity);
      assert (Hg : (negb (existsb (path_eqb root) (parents p)) && negb (path_eqb p root)) = false)
        by (apply guard_spec; exact Hin);
      unfold apply_change, pbind, plift, pret, praise, py_get;
      rewrite Ha, Hp, Htr, Hs'; cbn [negb orb];
      unfold safe_relpath, pret, praise; rewrite Hres, Hg; cbv beta iota;
      unfold mkdir_parents
  end.

(** X5: a [replace] inside the root (content defaulting to the empty string) stores the content as given, and reading the file back returns it with its line endings translated to newlines. *)
Theorem replace_round_trip (E : py_env) (root : path) (kvs : list (pystr * json))
  (s : pystr) (p : path) (c : pystr) (st : fs) :
  assoc_get kvs (pys "action") = Some (JStr (pys "replace")) ->
  assoc_get kvs (pys "path") = Some (JStr s) -> s <> [] ->
  env_resolve E root s = Some p ->
  (p = root \/ exists r, r <> [] /\ p = root ++ r) ->
  p <> [] -> p ∉ fs_dirs st ->
  existsb (is_file st) (parents (parent p) ++ [parent p]) = false ->
  match assoc_get kvs (pys "content") with Some v => v | None => JStr [] end = JStr c ->
  existsb is_surrogate c = false ->
  exists st', apply_change E root (JObj kvs) st = (st', Ok (true, MReplace (JStr s)))
    /\ fs_files st' = <[p := FText c]> (fs_files st)
    /\ read_text p st' = (st', Ok (translate_newlines c)).
Proof.
  intros Ha Hp Hs Hres Hin Hne Hnd Hmk Hc Hsur.
  assert (Htr : tr E (JStr (pys "replace")) = true) by reflexivity.
  destruct (chain_setup st p Hne Hnd) as (Hf1 & Hpd & Hpar).
  open_change. rewrite Hmk. cbv beta iota.
  assert (R1 : json_is_str (JStr (pys "replace")) (pys "replace") = true) by reflexivity.
  rewrite R1, Hc. unfold write_text. rewrite Hpd, Hpar, Hsur. cbn [negb].
  eexists. split; [reflexivity|]. cbn [set_file fs_files]. rewrite Hf1. split; [reflexivity|].
  unfold read_text. set (st1 := fold_left add_dir _ st) in *.
  assert (Hpd2 : is_dir (set_file st1 p c) p = false) by exact Hpd. rewrite Hpd2.
  change (fs_files (set_file st1 p c)) with (<[p := FText c]> (fs_files st1)). rewrite lookup_insert_eq. reflexivity.
Qed.

(** X6: an [append] inside the root stores the file's previous text, as read in text mode (newlines translated; empty for a missing file), followed by the content. *)
Theorem append_concatenates (E : py_env) (root : path) (kvs : list (pystr * json))
  (s : pystr) (p : path) (c : pystr) (st : fs) :
  assoc_get kvs (pys "action") = Some (JStr (pys "append")) ->
  assoc_get kvs (pys "path") = Some (JStr s) -> s <> [] ->
  env_resolve E root s = Some p ->
  (p = root \/ exists r, r <> [] /\ p = root ++ r) ->
  p <> [] -> p ∉ fs_dirs st ->
  existsb (is_file st) (parents (parent p) ++ [parent p]) = false ->
  match assoc_get kvs (pys "content") with Some v => v | None => JStr [] end = JStr c ->
  fs_files st !! p <> Some FUndecodable ->
  forall prev : pystr,
  prev = match fs_files st !! p with Some (FText raw) => translate_newlines raw | _ => [] end ->
  existsb is_surrogate (prev ++ c) = false ->
  exists st', apply_change E root (JObj kvs) st = (st', Ok (true, MAppend (JStr s)))
    /\ fs_files st' = <[p := FText (prev ++ c)]> (fs_files st).
Proof.
  intros Ha Hp Hs Hres Hin Hne Hnd Hmk Hc Hbin prev Hprev Hsur.
  assert (Htr : tr E (JStr (pys "append")) = true) by reflexivity.
  destruct (chain_setup st p Hne Hnd) as (Hf1 & Hpd & Hpar).
  open_change. rewrite Hmk. cbv beta iota.
  set (st1 := fold_left add_dir _ st) in *.
  assert (R1 : json_is_str (JStr (pys "append")) (pys "replace") = false) by reflexivity.
  assert (R2 : json_is_str (JStr (pys "append")) (pys "append") = true) by reflexivity.
  rewrite R1, R2. cbv beta iota.
  rewrite (read_or_empty_text st1 p Hpd ltac:(rewrite Hf1; exact Hbin)). cbv beta iota.
  rewrite Hc. unfold str_concat. cbv beta iota.
  rewrite Hf1, <- Hprev.
  unfold write_text. rewrite Hpd, Hpar, Hsur. cbn [negb].
  eexists. split; [reflexivity|]. cbn [set_file fs_files]. rewrite Hf1. reflexivity.
Qed.

(** X7: an [append], or a [patch_block] with a [find], on a file that is not valid UTF-8 raises [UnicodeDecodeError] and changes no file. *)
Theorem undecodable_target_raises (E : py_env) (root : path) (kvs : list (pystr * json))
  (a : json) (s : pystr) (p : path) (st : fs) :
  assoc_get kvs (pys "action") = Some a ->
  assoc_get kvs (pys "path") = Some (JStr s) -> s <> [] ->
  env_resolve E root s = Some p ->
  (p = root \/ exists r, r <> [] /\ p = root ++ r) ->
  p <> [] -> p ∉ fs_dirs st ->
  existsb (is_file st) (parents (parent p) ++ [parent p]) = false ->
  fs_files st !! p = Some FUndecodable ->
  json_is_str a (pys "append") = true
  \/ (json_is_str a (pys "patch_block") = true
      /\ tr E (match assoc_get kvs (pys "find") with Some f => f | None => JNull end) = true) ->
  exists st', apply_change E root (JObj kvs) st = (st', Exc UnicodeDecodeError_)
    /\ fs_files st' = fs_files st.
Proof.
  intros Ha Hp Hs Hres Hin Hne Hnd Hmk Hbin Hact.
  assert (Hstr : exists t, a = JStr t).
  { destruct Hact as [H|[H _]]; destruct a; try discriminate; eexists; reflexivity. }
  assert (Htr : tr E a = true).
  { destruct Hstr as [t ->]. destruct Hact as [H|[H _]]; unfold json_is_str, pystr_eqb in H;
    apply bool_decide_eq_true in H; subst t; reflexivity. }
  destruct (chain_setup st p Hne Hnd) as (Hf1 & Hpd & Hpar).
  open_change. rewrite Hmk. cbv beta iota.
  set (st1 := fold_left add_dir _ st) in *.
  assert (Hread : read_or_empty p st1 = (st1, Exc UnicodeDecodeError_)).
  { unfold read_or_empty, pbind, path_exists, is_file. rewrite Hf1, Hbin.
    rewrite bool_decide_eq_true_2 by (eexists; reflexivity). cbn [orb].
    unfold read_text. rewrite Hpd, Hf1, Hbin. reflexivity. }
  destruct Hstr as [t ->].
  destruct Hact as [H|[H Hf]].
  - unfold json_is_str, pystr_eqb in H. apply bool_decide_eq_true in H. subst t.
    assert (R1 : json_is_str (JStr (pys "append")) (pys "replace") = false) by reflexivity.
    rewrite R1, (eq_refl : json_is_str (JStr (pys "append")) (pys "append") = true). cbv beta iota.
    rewrite Hread. eexists. split; [reflexivity|exact Hf1].
  - unfold json_is_str, pystr_eqb in H. apply bool_decide_eq_true in H. subst t.
    assert (R1 : json_is_str (JStr (pys "patch_block")) (pys "replace") = false) by reflexivity.
    assert (R2 : json_is_str (JStr (pys "patch_block")) (pys "append") = false) by reflexivity.
    rewrite R1, R2, (eq_refl : json_is_str (JStr (pys "patch_block")) (pys "patch_block") = true).
    cbv beta iota. rewrite Hf. cbn [negb]. cbv beta iota. rewrite Hread.
    eexists. split; [reflexivity|exact Hf1].
Qed.

(** X8: a [replace] whose content holds a lone surrogate empties the target file and raises [UnicodeEncodeError], which [apply_changes] logs as a failure. *)
Theorem surrogate_truncates (E : py_env) (root : path) (kvs : list (pystr * json))
  (s : pystr) (p : path) (c : pystr) (st : fs) :
  assoc_get kvs (pys "action") = Some (JStr (pys "replace")) ->
  assoc_get kvs (pys "path") = Some (JStr s) -> s <> [] ->
  env_resolve E root s = Some p ->
  (p = root \/ exists r, r <> [] /\ p = root ++ r) ->
  p <> [] -> p ∉ fs_dirs st ->
  existsb (is_file st) (parents (parent p) ++ [parent p]) = false ->
  match assoc_get kvs (pys "content") with Some v => v | None => JStr [] end = JStr c ->
  existsb is_surrogate c = true ->
  exists st', apply_change E root (JObj kvs) st = (st', Exc UnicodeEncodeError_)
    /\ fs_files st' = <[p := FText []]> (fs_files st)
    /\ (apply_all E root [JObj kvs] st).2 = [(false, LErr UnicodeEncodeError_)].
Proof.
  intros Ha Hp Hs Hres Hin Hne Hnd Hmk Hc Hsur.
  assert (Htr : tr E (JStr (pys "replace")) = true) by reflexivity.
  destruct (chain_setup st p Hne Hnd) as (Hf1 & Hpd & Hpar).
  assert (Hac : apply_change E root (JObj kvs) st =
                (set_file (fold_left add_dir (parents (parent p) ++ [parent p]) st) p [],
                 Exc UnicodeEncodeError_)).
  { open_change. rewrite Hmk. cbv beta iota.
    rewrite (eq_refl : json_is_str (JStr (pys "replace")) (pys "replace") = true), Hc.
    unfold write_text. rewrite Hpd, Hpar, Hsur. reflexivity. }
  eexists. split; [exact Hac|]. split.
  - cbn [set_file fs_files]. rewrite Hf1. reflexivity.
  - cbn [apply_all]. rewrite Hac. reflexivity.
Qed.

(** X9: when a regular file stands on the parent chain of the target, [apply_change] raises [OSError] before anything is written or created. *)
Theorem mkdir_failure_raises (E : py_env) (root : path) (kvs : list (pystr * json))
  (a : json) (s : pystr) (p : path) (st : fs) :
  assoc_get kvs (pys "action") = Some a -> tr E a = true ->
  assoc_get kvs (pys "path") = Some (JStr s) -> s <> [] ->
  env_resolve E root s = Some p ->
  (p = root \/ exists r, r <> [] /\ p = root ++ r) ->
  existsb (is_file st) (parents (parent p) ++ [parent p]) = true ->
  apply_change E root (JObj kvs) st = (st, Exc (OSError_ NotADirectoryOrExistsError)).
Proof.
  intros Ha Htr Hp Hs Hres Hin Hmk. open_change. rewrite Hmk. reflexivity.
Qed.

(** X10: a change object with a falsy or missing [action] or [path] is reported incomplete and changes nothing; a change that is not an object raises [AttributeError] and changes nothing. *)
Theorem incomplete_change (E : py_env) (root : path) (ch : json) (st : fs) :
  (forall kvs, ch = JObj kvs ->
     tr E (match assoc_get kvs (pys "action") with Some v => v | None => JNull end) = false
     \/ tr E (match assoc_get kvs (pys "path") with Some v => v | None => JNull end) = false ->
     apply_change E root ch st = (st, Ok (false, MIncomplete)))
  /\ ((forall kvs, ch <> JObj kvs) -> apply_change E root ch st = (st, Exc AttributeError_)).
Proof.
  split.
  - intros kvs -> H. unfold apply_change, pbind, plift, pret, py_get.
    destruct H as [H1|H1]; rewrite H1; cbn [negb orb]; [reflexivity|].
    rewrite orb_true_r. reflexivity.
  - intros H. destruct ch as [| | | | | |kvs]; try reflexivity.
    exfalso. exact (H kvs eq_refl).
Qed.

Lemma parse_template_go_lit isid cp (n : nat) (c : Z) (r : pystr) :
  c <> 92 ->
  parse_template_go isid cp (S n) (c :: r) = tcons (TLit c) (parse_template_go isid cp n r).
Proof.
  intros H. destruct c as [|q|q]; [reflexivity| |reflexivity].
  repeat (destruct q as [q|q|]; try reflexivity). exfalso. apply H. reflexivity.
Qed.

Lemma parse_template_go_literal isid cp (s : pystr) (n : nat) :
  ~ In 92 s -> (length s < n)%nat -> parse_template_go isid cp n s = Ok (map TLit s).
Proof.
  revert n. induction s as [|c s IH]; intros n Hb Hn.
  - destruct n; reflexivity.
  - destruct n as [|n]; [cbn in Hn; lia|].
    rewrite parse_template_go_lit by (intros ->; apply Hb; left; reflexivity).
    rewrite IH; [reflexivity| |cbn in Hn; lia].
    intros Hin. apply Hb. right. exact Hin.
Qed.

Lemma parse_template_literal isid cp (s : pystr) :
  ~ In 92 s -> parse_template isid cp s = Ok (map TLit s).
Proof.
  intros Hb. apply parse_template_go_literal; [exact Hb|lia].
Qed.

Lemma expand_literal (c : pystr) (m : re_match) : expand (map TLit c) m = c.
Proof.
  unfold expand. induction c as [|x c IH]; [reflexivity|]. cbn. rewrite IH. reflexivity.
Qed.

Ltac open_regex st p Hf1 Hpd Hmk Hf Hf' Hrx Hbin Hc :=
  rewrite Hmk; cbv beta iota;
  set (st1 := fold_left add_dir _ st) in *;
  rewrite (eq_refl : json_is_str (JStr (pys "patch_block")) (pys "replace") = false),
          (eq_refl : json_is_str (JStr (pys "patch_block")) (pys "append") = false),
          (eq_refl : json_is_str (JStr (pys "patch_block")) (pys "patch_block") = true);
  cbv beta iota; rewrite Hf, Hf'; cbn [negb]; cbv beta iota;
  rewrite (read_or_empty_text st1 p Hpd ltac:(rewrite Hf1; exact Hbin));
  cbv beta iota; rewrite Hrx, Hc; cbv beta iota.

(** X11: a regex [patch_block] whose content has no backslash replaces every match of the pattern in the file by the content itself and reports the number of matches. *)
Theorem regex_replaces_every_match (E : py_env) (root : path) (kvs : list (pystr * json))
  (s : pystr) (p : path) (f c : pystr) (cp : re_pattern) (st : fs) :
  assoc_get kvs (pys "action") = Some (JStr (pys "patch_block")) ->
  assoc_get kvs (pys "path") = Some (JStr s) -> s <> [] ->
  env_resolve E root s = Some p ->
  (p = root \/ exists r, r <> [] /\ p = root ++ r) ->
  p <> [] -> p ∉ fs_dirs st ->
  existsb (is_file st) (parents (parent p) ++ [parent p]) = false ->
  assoc_get kvs (pys "find") = Some (JStr f) -> f <> [] ->
  tr E (match assoc_get kvs (pys "regex") with Some v => v | None => JBool false end) = true ->
  match assoc_get kvs (pys "content") with Some v => v | None => JStr [] end = JStr c ->
  ~ In 92 c ->
  env_re_compile E f = Ok cp ->
  fs_files st !! p <> Some FUndecodable ->
  forall text : pystr,
  text = match fs_files st !! p with Some (FText raw) => translate_newlines raw | _ => [] end ->
  p_finditer cp text <> [] ->
  existsb is_surrogate (splice text O (map TLit c) (p_finditer cp text)) = false ->
  (exists st', apply_change E root (JObj kvs) st =
                 (st', Ok (true, MRegexOk (length (p_finditer cp text)) (JStr s)))
     /\ fs_files st' = <[p := FText (splice text O (map TLit c) (p_finditer cp text))]> (fs_files st))
  /\ forall m, expand (map TLit c) m = c.
Proof.
  intros Ha Hp Hs Hres Hin Hne Hnd Hmk Hf Hfne Hrx Hc Hbs Hcp Hbin text Htext Hms Hsur.
  split; [|apply expand_literal].
  assert (Htr : tr E (JStr (pys "patch_block")) = true) by reflexivity.
  assert (Hf' : tr E (JStr f) = true).
  { unfold tr, truthy. rewrite (bool_decide_eq_false_2 _ Hfne). reflexivity. }
  destruct (chain_setup st p Hne Hnd) as (Hf1 & Hpd & Hpar).
  open_change. open_regex st p Hf1 Hpd Hmk Hf Hf' Hrx Hbin Hc.
  rewrite Hf1, <- Htext.
  unfold re_subn. rewrite Hcp, (parse_template_literal _ cp c Hbs). cbv beta iota zeta.
  destruct (length (p_finditer cp text)) as [|n] eqn:Hlen.
  { apply length_zero_iff_nil in Hlen. contradiction. }
  cbn [Nat.eqb]. unfold write_text. rewrite Hpd, Hpar, Hsur. cbn [negb].
  eexists. split; [reflexivity|]. cbn [set_file fs_files]. rewrite Hf1. reflexivity.
Qed.


(** X16: a [replace] with a string content, an [append], or a [patch_block] with a [find], whose target is an existing directory, raises [IsADirectoryError] and changes no file. *)
Theorem directory_target_raises (E : py_env) (root : path) (kvs : list (pystr * json))
  (a : json) (s : pystr) (p : path) (st : fs) :
  assoc_get kvs (pys "action") = Some a ->
  assoc_get kvs (pys "path") = Some (JStr s) -> s <> [] ->
  env_resolve E root s = Some p ->
  (p = root \/ exists r, r <> [] /\ p = root ++ r) ->
  p ∈ fs_dirs st ->
  existsb (is_file st) (parents (parent p) ++ [parent p]) = false ->
  (json_is_str a (pys "replace") = true
   /\ exists c, match assoc_get kvs (pys "content") with Some v => v | None => JStr [] end = JStr c)
  \/ json_is_str a (pys "append") = true
  \/ (json_is_str a (pys "patch_block") = true
      /\ tr E (match assoc_get kvs (pys "find") with Some f => f | None => JNull end) = true) ->
  exists st', apply_change E root (JObj kvs) st = (st', Exc (OSError_ IsADirectoryError))
    /\ fs_files st' = fs_files st.
Proof.
  intros Ha Hp Hs Hres Hin Hd Hmk Hact.
  assert (Hstr : exists t, a = JStr t).
  { destruct Hact as [[H _]|[H|[H _]]]; destruct a; try discriminate; eexists; reflexivity. }
  assert (Htr : tr E a = true).
  { destruct Hstr as [t ->]. destruct Hact as [[H _]|[H|[H _]]]; unfold json_is_str, pystr_eqb in H;
    apply bool_decide_eq_true in H; subst t; reflexivity. }
  destruct (fold_add_dir_parents (parents (parent p) ++ [parent p]) st) as [Hf1 _].
  open_change. rewrite Hmk. cbv beta iota.
  set (st1 := fold_left add_dir _ st) in *.
  assert (Hpd : is_dir st1 p = true).
  { unfold is_dir. apply bool_decide_eq_true. apply fold_add_dir_dirs. right. exact Hd. }
  assert (Hread : read_or_empty p st1 = (st1, Exc (OSError_ IsADirectoryError))).
  { unfold read_or_empty, pbind, path_exists. rewrite Hpd, orb_true_r.
    unfold read_text. rewrite Hpd. reflexivity. }
  destruct Hstr as [t ->].
  destruct Hact as [[H [c Hc]]|[H|[H Hf]]];
    unfold json_is_str, pystr_eqb in H; apply bool_decide_eq_true in H; subst t.
  - rewrite (eq_refl : json_is_str (JStr (pys "replace")) (pys "replace") = true), Hc.
    unfold write_text. rewrite Hpd. eexists. split; [reflexivity|exact Hf1].
  - rewrite (eq_refl : json_is_str (JStr (pys "append")) (pys "replace") = false),
            (eq_refl : json_is_str (JStr (pys "append")) (pys "append") = true).
    cbv beta iota. rewrite Hread. eexists. split; [reflexivity|exact Hf1].
  - rewrite (eq_refl : json_is_str (JStr (pys "patch_block")) (pys "replace") = false),
            (eq_refl : json_is_str (JStr (pys "patch_block")) (pys "append") = false),
            (eq_refl : json_is_str (JStr (pys "patch_block")) (pys "patch_block") = true).
    cbv beta iota. rewrite Hf. cbn [negb]. cbv beta iota. rewrite Hread.
    eexists. split; [reflexivity|exact Hf1].
Qed.

Lemma dict_set_keys (kvs : list (pystr * json)) k v x :
  In x (map fst (dict_set kvs k v)) -> x = k \/ In x (map fst kvs).
Proof.
  induction kvs as [|[k' v'] r IH]; cbn.
  - intros [<-|[]]. left. reflexivity.
  - destruct (pystr_eqb k k'); cbn.
    + intros [<-|H]; right; [left; reflexivity|right; exact H].
    + intros [<-|H]; [right; left; reflexivity|]. destruct (IH H) as [->|H']; [left; reflexivity|].
      right; right; exact H'.
Qed.

Lemma dict_set_nodup (kvs : list (pystr * json)) k v :
  NoDup (map fst kvs) -> NoDup (map fst (dict_set kvs k v)).
Proof.
  induction kvs as [|[k' v'] r IH]; cbn; intros Hnd.
  - apply NoDup_singleton.
  - apply NoDup_cons in Hnd as [Hn Hr].
    destruct (pystr_eqb k k') eqn:Hk; cbn; apply NoDup_cons.
    + split; assumption.
    + split; [|exact (IH Hr)].
      rewrite list_elem_of_In. intros Hin.
      destruct (dict_set_keys r k v k' Hin) as [->|H].
      * unfold pystr_eqb in Hk. rewrite bool_decide_eq_true_2 in Hk by reflexivity. discriminate.
      * apply Hn. apply list_elem_of_In. exact H.
Qed.

Lemma scan_members_obj n d acc s v r :
  Json.scan_members n d acc s = Ok (v, r) -> NoDup (map fst acc) ->
  exists kvs, v = JObj kvs /\ NoDup (map fst kvs).
Proof.
  revert acc s. induction n as [|n IH]; intros acc s H Hnd; [discriminate|].
  cbn in H. destruct s as [|c s]; [discriminate|].
  destruct c as [|q|q]; try discriminate.
  repeat (destruct q as [q|q|]; try discriminate).
  destruct (Json.scan_str s []) as [[k r1]|]; [|discriminate].
  destruct (Json.skip_ws r1) as [|c2 r2]; [discriminate|].
  destruct c2 as [|q|q]; try discriminate.
  repeat (destruct q as [q|q|]; try discriminate).
  destruct (Json.scan_value n d (Json.skip_ws r2)) as [[v' r3]|e]; [|discriminate].
  pose proof (dict_set_nodup acc k v' Hnd) as Hnd'.
  destruct (Json.skip_ws r3) as [|c4 r4]; [discriminate|].
  destruct c4 as [|q|q]; try discriminate.
  repeat (destruct q as [q|q|]; try discriminate).
  all: first [ exact (IH _ _ H Hnd')
             | injection H as <- _; eexists; split; [reflexivity|exact Hnd'] ].
Qed.

Lemma scan_value_brace n d r v r' :
  Json.scan_value n d (123 :: r) = Ok (v, r') -> exists kvs, v = JObj kvs /\ NoDup (map fst kvs).
Proof.
  intros H. destruct n as [|n]; [discriminate|]. cbn [Json.scan_value] in H.
  destruct d as [|d]; [discriminate|].
  destruct (Json.skip_ws r) as [|c r0].
  { exact (scan_members_obj _ _ _ _ _ _ H (NoDup_nil_2)). }
  destruct c as [|q|q]; try exact (scan_members_obj _ _ _ _ _ _ H (NoDup_nil_2)).
  repeat (destruct q as [q|q|]; try exact (scan_members_obj _ _ _ _ _ _ H (NoDup_nil_2))).
  injection H as <- _. exists []. split; [reflexivity|apply NoDup_nil_2].
Qed.

Lemma loads_brace d (r : pystr) v :
  Json.loads d (123 :: r) = Ok v -> exists kvs, v = JObj kvs /\ NoDup (map fst kvs).
Proof.
  intros H. unfold Json.loads in H. cbv beta iota in H.
  assert (E1 : Json.skip_ws (123 :: r) = 123 :: r) by reflexivity. rewrite E1 in H.
  destruct (Json.scan_value _ d (123 :: r)) as [[v' r']|e] eqn:Hs; [|discriminate].
  destruct (Json.skip_ws r'); [|discriminate]. injection H as <-.
  exact (scan_value_brace _ _ _ _ _ Hs).
Qed.

Lemma findall_go_brace n s cand : In cand (findall_go n s) -> exists r, cand = 123 :: r.
Proof.
  revert s. induction n as [|n IH]; intros s H; [destruct H|].
  destruct s as [|c s]; [destruct H|]. cbn [findall_go] in H.
  destruct (Z.eqb c 123) eqn:Hc; [|exact (IH _ H)].
  apply Z.eqb_eq in Hc. subst c.
  destruct (last_close s) as [[body after]|]; [|exact (IH _ H)].
  destruct H as [<-|H]; [eexists; reflexivity|exact (IH _ H)].
Qed.

(** X13: every value [parse_first_json_block] returns is a JSON object, and its keys are pairwise distinct. *)
Theorem reply_is_object (d : nat) (text : pystr) (v : json) :
  parse_first_json_block d text = Ok v -> exists kvs, v = JObj kvs /\ NoDup (map fst kvs).
Proof.
  unfold parse_first_json_block.
  assert (Hc : forall cand, In cand (findall_brace text) -> exists r, cand = 123 :: r).
  { intros cand. apply findall_go_brace. }
  induction (findall_brace text) as [|cand rest IH].
  - destruct (startswith_brace (py_strip text)) eqn:Hb; [|discriminate]. cbn [andb].
    destruct (endswith_brace (py_strip text)); [|discriminate].
    destruct (py_strip text) as [|c r]; [discriminate|].
    intros Hl.
    destruct c as [|q|q]; try discriminate.
    repeat (destruct q as [q|q|]; try discriminate).
    exact (loads_brace d r v Hl).
  - destruct (Hc cand (or_introl eq_refl)) as [r ->].
    destruct (Json.loads d (123 :: r)) as [v'|e] eqn:Hl.
    + intros H. injection H as <-. exact (loads_brace d r v' Hl).
    + apply IH. intros cand' Hin. apply Hc. right. exact Hin.
Qed.

Lemma apply_all_app E root (l1 l2 : list json) (st : fs) :
  apply_all E root (l1 ++ l2) st =
  ((apply_all E root l2 (apply_all E root l1 st).1).1,
   (apply_all E root l1 st).2 ++ (apply_all E root l2 (apply_all E root l1 st).1).2).
Proof.
  revert st. induction l1 as [|ch l1 IH]; intros st; cbn [app apply_all].
  - cbn [fst snd app]. destruct (apply_all E root l2 st); reflexivity.
  - destruct (apply_change E root ch st) as [st1 res]. rewrite IH.
    destruct (apply_all E root l1 st1) as [st2 g1]. cbn [fst snd].
    destruct (apply_all E root l2 st2) as [st3 g2]. reflexivity.
Qed.

(** X14: applying a list of changes [l1 ++ l2] is applying [l1], then [l2] on the resulting filesystem, the log lines following one another; a failing change does not stop the batch. *)
Theorem apply_changes_sequential E root (l1 l2 : list json) (st : fs) :
  apply_changes E root (JArr (l1 ++ l2)) st =
  let '(st1, g1) := apply_all E root l1 st in
  let '(st2, g2) := apply_all E root l2 st1 in
  (st2, Ok (g1 ++ g2)).
Proof.
  rewrite apply_changes_arr, apply_all_app.
  destruct (apply_all E root l1 st) as [st1 g1]. cbn [fst snd].
  destruct (apply_all E root l2 st1) as [st2 g2]. reflexivity.
Qed.

Lemma apply_all_not_dicts E root (l : list json) (st : fs) :
  (forall ch, In ch l -> forall kvs, ch <> JObj kvs) ->
  apply_all E root l st = (st, map (fun _ => (false, LErr AttributeError_)) l).
Proof.
  induction l as [|ch l IH]; intros H; [reflexivity|]. cbn [apply_all].
  assert (Hc : apply_change E root ch st = (st, Exc AttributeError_)).
  { destruct ch; try reflexivity. exfalso. exact (H _ (or_introl eq_refl) _ eq_refl). }
  rewrite Hc, IH by (intros c Hin; apply H; right; exact Hin). reflexivity.
Qed.

(** X15: [apply_changes] on a falsy value logs nothing; on a string or an object it logs one [AttributeError] failure per character or per key and changes nothing; on a truthy number or boolean it raises [TypeError] and changes nothing. *)
Theorem apply_changes_not_a_list E root (changes : json) (st : fs) :
  (tr E changes = false -> apply_changes E root changes st = (st, Ok [])) /\
  (forall s, changes = JStr s ->
     apply_changes E root changes st = (st, Ok (map (fun _ => (false, LErr AttributeError_)) s))) /\
  (forall kvs, changes = JObj kvs ->
     apply_changes E root changes st = (st, Ok (map (fun _ => (false, LErr AttributeError_)) kvs))) /\
  (tr E changes = true -> (forall l, changes <> JArr l) -> (forall s, changes <> JStr s) ->
     (forall kvs, changes <> JObj kvs) -> apply_changes E root changes st = (st, Exc TypeError_)).
Proof.
  unfold apply_changes, iter_changes. split; [|split; [|split]].
  - intros H. rewrite H. reflexivity.
  - intros s ->. destruct (tr E (JStr s)) eqn:Ht; cbn [negb].
    + rewrite apply_all_not_dicts.
      * rewrite map_map. reflexivity.
      * intros ch Hin kvs ->. apply in_map_iff in Hin as [c [Hc _]]. discriminate.
    + unfold tr, truthy in Ht. apply negb_false_iff, bool_decide_eq_true in Ht. subst s. reflexivity.
  - intros kvs ->. destruct (tr E (JObj kvs)) eqn:Ht; cbn [negb].
    + rewrite apply_all_not_dicts.
      * rewrite map_map. reflexivity.
      * intros ch Hin kvs' ->. apply in_map_iff in Hin as [c [Hc _]]. discriminate.
    + unfold tr, truthy in Ht. apply negb_false_iff, bool_decide_eq_true in Ht. subst kvs. reflexivity.
  - intros Ht Ha Hs Ho. rewrite Ht. cbn [negb].
    destruct changes as [| | | |s|l|kvs]; try reflexivity.
    + exfalso. exact (Hs s eq_refl).
    + exfalso. exact (Ha l eq_refl).
    + exfalso. exact (Ho kvs eq_refl).
Qed.

(** X1, an instance: neither an escaping [replace] nor the convergence run
    touches [/etc/passwd]. *)
Lemma run_frames_witness :
  fs_files (apply_changes Concrete.env Concrete.ws
              (JArr [JObj (Concrete.replace_kvs "../etc/passwd" "pwn")]) Concrete.fs0).1
    !! [pys "etc"; pys "passwd"] = None /\
  fs_files (r_fs (main Concrete.env Concrete.ws Concrete.claude_conv Concrete.codex_conv
                    Concrete.question InEOF Concrete.fs0)) !! [pys "etc"; pys "passwd"] = None.
Proof.
  apply (run_frames Concrete.env Concrete.ws Concrete.claude_conv Concrete.codex_conv
    Concrete.question InEOF (JArr [JObj (Concrete.replace_kvs "../etc/passwd" "pwn")])
    Concrete.fs0 [pys "etc"; pys "passwd"]).
  intros [H|[r [_ H]]]; vm_compute in H; discriminate.
Defined.

(** X2, an instance: the run whose Proposer stops answering in JSON on
    turn 1, with no answer at the gate. *)
Lemma no_write_without_agreement_witness :
  r_fs (main Concrete.env Concrete.ws Concrete.claude_late_fail Concrete.codex_hi
          Concrete.question InEOF Concrete.fs0) = Concrete.fs0
  \/ exists logs, lo_exit (loop Concrete.env Concrete.ws Concrete.claude_late_fail Concrete.codex_hi
                             TURN_LIMIT O None None Concrete.fs0 []) = LCommit logs.
Proof.
  apply (no_write_without_agreement Concrete.env Concrete.ws Concrete.claude_late_fail
    Concrete.codex_hi Concrete.question InEOF Concrete.fs0). reflexivity.
Defined.

(** X4, an instance: [sub/x] is accepted as [/ws/sub/x] and [../x] is not. *)
Lemma safe_relpath_accepts_inside_witness :
  (safe_relpath Concrete.env Concrete.ws (JStr (pys "sub/x")) Concrete.fs0).2
    = Ok (Concrete.ws ++ [pys "sub"; pys "x"]) /\
  (safe_relpath Concrete.env Concrete.ws (JInt 3) Concrete.fs0).2 = Exc TypeError_.
Proof.
  split.
  - apply (proj1 (proj2 (safe_relpath_accepts_inside Concrete.env Concrete.ws
      (JStr (pys "sub/x")) Concrete.fs0)) (Concrete.ws ++ [pys "sub"; pys "x"])).
    exists (pys "sub/x"). split; [reflexivity|]. split; [vm_compute; reflexivity|].
    right. exists [pys "sub"; pys "x"]. split; [discriminate|reflexivity].
  - apply (proj2 (proj2 (proj2 (safe_relpath_accepts_inside Concrete.env Concrete.ws
      (JInt 3) Concrete.fs0)))). intros s H. discriminate.
Defined.

(** X5, an instance: [replace] of [a.txt] by ["hi\r\n"] stores it as given
    and reads back ["hi\n"]. *)
Lemma replace_round_trip_witness :
  exists st', apply_change Concrete.env Concrete.ws (JObj (Concrete.replace_cps [104; 105; 13; 10]))
                Concrete.fs_a = (st', Ok (true, MReplace (JStr (pys "a.txt"))))
    /\ fs_files st' = <[Concrete.ws ++ [pys "a.txt"] := FText [104; 105; 13; 10]]> (fs_files Concrete.fs_a)
    /\ read_text (Concrete.ws ++ [pys "a.txt"]) st' = (st', Ok [104; 105; 10]).
Proof.
  apply (replace_round_trip Concrete.env Concrete.ws (Concrete.replace_cps [104; 105; 13; 10])
    (pys "a.txt") (Concrete.ws ++ [pys "a.txt"]) [104; 105; 13; 10] Concrete.fs_a).
  - reflexivity.
  - reflexivity.
  - vm_compute. discriminate.
  - vm_compute. reflexivity.
  - right. exists [pys "a.txt"]. split; [discriminate|reflexivity].
  - vm_compute. discriminate.
  - vm_compute. discriminate.
  - vm_compute. reflexivity.
  - reflexivity.
  - vm_compute. reflexivity.
Defined.

(** X6, an instance: appending [y] to [a.txt] holding [x] gives [xy]. *)
Lemma append_concatenates_witness :
  exists st', apply_change Concrete.env Concrete.ws (JObj (Concrete.append_kvs "a.txt" "y"))
                Concrete.fs_a = (st', Ok (true, MAppend (JStr (pys "a.txt"))))
    /\ fs_files st' = <[Concrete.ws ++ [pys "a.txt"] := FText (pys "x" ++ pys "y")]>
                        (fs_files Concrete.fs_a).
Proof.
  apply (append_concatenates Concrete.env Concrete.ws (Concrete.append_kvs "a.txt" "y")
    (pys "a.txt") (Concrete.ws ++ [pys "a.txt"]) (pys "y") Concrete.fs_a).
  - reflexivity.
  - reflexivity.
  - vm_compute. discriminate.
  - vm_compute. reflexivity.
  - right. exists [pys "a.txt"]. split; [discriminate|reflexivity].
  - vm_compute. discriminate.
  - vm_compute. discriminate.
  - vm_compute. reflexivity.
  - reflexivity.
  - vm_compute. discriminate.
  - vm_compute. reflexivity.
  - vm_compute. reflexivity.
Defined.

(** X7, an instance: appending to the undecodable [a.bin]. *)
Lemma undecodable_target_raises_witness :
  exists st', apply_change Concrete.env Concrete.ws (JObj (Concrete.append_kvs "a.bin" "y"))
                Concrete.fs_bin = (st', Exc UnicodeDecodeError_)
    /\ fs_files st' = fs_files Concrete.fs_bin.
Proof.
  apply (undecodable_target_raises Concrete.env Concrete.ws (Concrete.append_kvs "a.bin" "y")
    (JStr (pys "append")) (pys "a.bin") (Concrete.ws ++ [pys "a.bin"]) Concrete.fs_bin).
  - reflexivity.
  - reflexivity.
  - vm_compute. discriminate.
  - vm_compute. reflexivity.
  - right. exists [pys "a.bin"]. split; [discriminate|reflexivity].
  - vm_compute. discriminate.
  - vm_compute. discriminate.
  - vm_compute. reflexivity.
  - vm_compute. reflexivity.
  - left. reflexivity.
Defined.

(** X8, an instance: a [replace] of [a.txt] by a lone surrogate. *)
Lemma surrogate_truncates_witness :
  exists st', apply_change Concrete.env Concrete.ws (JObj (Concrete.replace_cps [55296]))
                Concrete.fs_a = (st', Exc UnicodeEncodeError_)
    /\ fs_files st' = <[Concrete.ws ++ [pys "a.txt"] := FText []]> (fs_files Concrete.fs_a)
    /\ (apply_all Concrete.env Concrete.ws [JObj (Concrete.replace_cps [55296])] Concrete.fs_a).2
       = [(false, LErr UnicodeEncodeError_)].
Proof.
  apply (surrogate_truncates Concrete.env Concrete.ws (Concrete.replace_cps [55296])
    (pys "a.txt") (Concrete.ws ++ [pys "a.txt"]) [55296] Concrete.fs_a).
  - reflexivity.
  - reflexivity.
  - vm_compute. discriminate.
  - vm_compute. reflexivity.
  - right. exists [pys "a.txt"]. split; [discriminate|reflexivity].
  - vm_compute. discriminate.
  - vm_compute. discriminate.
  - vm_compute. reflexivity.
  - reflexivity.
  - vm_compute. reflexivity.
Defined.

(** X9, an instance: [a.txt/b.txt] when [a.txt] is a file. *)
Lemma mkdir_failure_raises_witness :
  apply_change Concrete.env Concrete.ws (JObj (Concrete.replace_kvs "a.txt/b.txt" "y")) Concrete.fs_a
  = (Concrete.fs_a, Exc (OSError_ NotADirectoryOrExistsError)).
Proof.
  apply (mkdir_failure_raises Concrete.env Concrete.ws (Concrete.replace_kvs "a.txt/b.txt" "y")
    (JStr (pys "replace")) (pys "a.txt/b.txt") (Concrete.ws ++ [pys "a.txt"; pys "b.txt"])
    Concrete.fs_a).
  - reflexivity.
  - reflexivity.
  - reflexivity.
  - vm_compute. discriminate.
  - vm_compute. reflexivity.
  - right. exists [pys "a.txt"; pys "b.txt"]. split; [discriminate|reflexivity].
  - vm_compute. reflexivity.
Defined.

(** X10, an instance: a [replace] with an empty path, and the number 3 in place of a change. *)
Lemma incomplete_change_witness :
  apply_change Concrete.env Concrete.ws (JObj (Concrete.bare_kvs "replace" "")) Concrete.fs_a
  = (Concrete.fs_a, Ok (false, MIncomplete))
  /\ apply_change Concrete.env Concrete.ws (JInt 3) Concrete.fs_a
     = (Concrete.fs_a, Exc AttributeError_).
Proof.
  split.
  - apply (proj1 (incomplete_change Concrete.env Concrete.ws
      (JObj (Concrete.bare_kvs "replace" "")) Concrete.fs_a) (Concrete.bare_kvs "replace" "")
      eq_refl). right. vm_compute. reflexivity.
  - apply (proj2 (incomplete_change Concrete.env Concrete.ws (JInt 3) Concrete.fs_a)).
    intros kvs H. discriminate.
Defined.

(** X11, an instance: the regex [x] replaced by [y] in [x x]. *)
Lemma regex_replaces_every_match_witness :
  exists st', apply_change Concrete.env Concrete.ws (JObj (Concrete.regex_kvs "x" "y"))
                Concrete.fs_xx = (st', Ok (true, MRegexOk 2 (JStr (pys "a.txt"))))
    /\ Concrete.file_at st' "a.txt" = Some (FText (pys "y y")).
Proof.
  destruct (proj1 (regex_replaces_every_match Concrete.env Concrete.ws (Concrete.regex_kvs "x" "y")
    (pys "a.txt") (Concrete.ws ++ [pys "a.txt"]) (pys "x") (pys "y")
    (Concrete.compiled (pys "x"))
    Concrete.fs_xx
    ltac:(reflexivity) ltac:(reflexivity) ltac:(vm_compute; discriminate)
    ltac:(vm_compute; reflexivity)
    ltac:(right; exists [pys "a.txt"]; split; [discriminate|reflexivity])
    ltac:(vm_compute; discriminate) ltac:(vm_compute; discriminate)
    ltac:(vm_compute; reflexivity) ltac:(reflexivity) ltac:(vm_compute; discriminate)
    ltac:(vm_compute; reflexivity) ltac:(reflexivity)
    ltac:(simpl; intros [H|[]]; discriminate)
    ltac:(vm_compute; reflexivity) ltac:(vm_compute; discriminate)
    (pys "x x") ltac:(vm_compute; reflexivity) ltac:(vm_compute; discriminate)
    ltac:(vm_compute; reflexivity)))
    as (st' & H1 & H2).
  exists st'. split; [exact H1|]. unfold Concrete.file_at. rewrite H2. vm_compute. reflexivity.
Defined.


(** X13, an instance: a reply repeating the key [a]. *)
Lemma reply_is_object_witness :
  parse_first_json_block 990 (Concrete.pyq "ok {'a': 1, 'a': 2} done")
    = Ok (JObj [(pys "a", JInt 2)]) /\
  exists kvs, JObj [(pys "a", JInt 2)] = JObj kvs /\ NoDup (map fst kvs).
Proof.
  split; [vm_compute; reflexivity|].
  apply (reply_is_object 990 (Concrete.pyq "ok {'a': 1, 'a': 2} done")). vm_compute. reflexivity.
Defined.

(** X15, an instance: a string [ab] in place of a list. *)
Lemma apply_changes_not_a_list_witness :
  apply_changes Concrete.env Concrete.ws (JStr (pys "ab")) Concrete.fs_a
  = (Concrete.fs_a, Ok [(false, LErr AttributeError_); (false, LErr AttributeError_)]).
Proof.
  apply (proj1 (proj2 (apply_changes_not_a_list Concrete.env Concrete.ws (JStr (pys "ab"))
    Concrete.fs_a)) (pys "ab") eq_refl).
Defined.

(** X16, an instance: a [replace] of [.], the workspace itself. *)
Lemma directory_target_raises_witness :
  exists st', apply_change Concrete.env Concrete.ws (JObj (Concrete.replace_kvs "." "x")) Concrete.fs0
              = (st', Exc (OSError_ IsADirectoryError))
    /\ fs_files st' = fs_files Concrete.fs0.
Proof.
  apply (directory_target_raises Concrete.env Concrete.ws (Concrete.replace_kvs "." "x")
    (JStr (pys "replace")) (pys ".") Concrete.ws Concrete.fs0).
  - reflexivity.
  - reflexivity.
  - vm_compute. discriminate.
  - vm_compute. reflexivity.
  - left. reflexivity.
  - vm_compute. reflexivity.
  - vm_compute. reflexivity.
  - left. split; [reflexivity|]. eexists. reflexivity.
Defined.
